(** * Request construction in OpenAPIClientAxios (src/src/client.ts)

    A shallow embedding of the request-construction engine of the client:
    the operation catalogue ([getOperations], [getOperation]), base URL
    resolution ([getBaseURL]), argument binding and request assembly
    ([getRequestConfigForOperation]) and the transport configuration
    ([getAxiosConfigForOperation]).

    JavaScript objects used as maps are finite maps with string keys;
    exceptions are an explicit [outcome]; the members of [this] that the
    functions read are the record [OpenAPIClientAxios]. *)

From Stdlib Require Import Ascii String.
From stdpp Require Import gmap strings list fin_maps pretty sorting.

Set Warnings "-register-all".
Open Scope string_scope.
Open Scope list_scope.

(** ** JavaScript values *)

(** Primitive values. Numbers are the integers, which JavaScript prints in
    decimal below 10^21, and NaN: the binder only tests numbers for
    truthiness and prints them. *)
Inductive prim :=
| PUndefined
| PNull
| PBool (b : bool)
| PNum (z : Z)
| PNaN
| PStr (s : string).

Inductive value :=
| Prim (p : prim)
| VArr (l : list value)
| VObj (m : gmap string value).

Abbreviation obj := (gmap string value).

Abbreviation undefined := (Prim PUndefined).
Abbreviation str s := (Prim (PStr s)).
Abbreviation num z := (Prim (PNum z)).

(** [if (v)]: ToBoolean. *)
Definition truthy_prim (p : prim) : bool :=
  match p with
  | PUndefined | PNull | PNaN => false
  | PBool b => b
  | PNum z => negb (z =? 0)%Z
  | PStr s => negb (String.eqb s "")
  end.

Definition truthy (v : value) : bool :=
  match v with
  | Prim p => truthy_prim p
  | VArr _ | VObj _ => true
  end.

Definition prim_to_string (p : prim) : string :=
  match p with
  | PUndefined => "undefined"
  | PNull => "null"
  | PBool true => "true"
  | PBool false => "false"
  | PNum z => pretty z
  | PNaN => "NaN"
  | PStr s => s
  end.

(** The template literal [`${v}`]: ToString. An array prints its elements
    joined by commas, with null and undefined elements printed as nothing.
    A number is printed in decimal digits, which is its string form for
    the safe integers: see [printable]. *)
Fixpoint to_string (v : value) : string :=
  match v with
  | Prim p => prim_to_string p
  | VArr l =>
      String.concat ","
        (map (fun x => match x with
                       | Prim PUndefined | Prim PNull => ""
                       | _ => to_string x
                       end) l)
  | VObj _ => "[object Object]"
  end.

(** [`${o}`] for an optional string member such as [operationId]. *)
Definition opt_to_string (o : option string) : string :=
  match o with
  | Some s => s
  | None => "undefined"
  end.

(** ** Exceptions *)

Inductive JsError :=
| Error (message : string)
| TypeError.

Inductive outcome (A : Type) :=
| Returns (a : A)
| Throws (e : JsError).

Arguments Returns {A} a.
Arguments Throws {A} e.

Definition bind {A B : Type} (m : outcome A) (f : A -> outcome B) : outcome B :=
  match m with
  | Returns a => f a
  | Throws e => Throws e
  end.

Notation "'let*' x ':=' m 'in' k" := (bind m (fun x => k))
  (at level 10, x name, m at level 100, k at level 200).

(** ** The types of ./types/client *)

(** Modelled from the spec: the enumeration ParamType of ./types/client,
    "location (path/query/header/cookie)", with the strings the OpenAPI
    grammar gives them. *)
Module ParamType.
Inductive t := Path | Query | Header | Cookie.

Definition value (x : t) : string :=
  match x with
  | Path => "path"
  | Query => "query"
  | Header => "header"
  | Cookie => "cookie"
  end.

#[global] Instance eq_dec : EqDecision t.
Proof. solve_decision. Defined.
End ParamType.

(** Modelled from the spec: the enumeration HttpMethod of ./types/client,
    "get/put/post/delete/options/head/patch/trace". *)
Module HttpMethod.
Inductive t := Get | Put | Post | Delete | Options | Head | Patch | Trace.

Definition value (x : t) : string :=
  match x with
  | Get => "get"
  | Put => "put"
  | Post => "post"
  | Delete => "delete"
  | Options => "options"
  | Head => "head"
  | Patch => "patch"
  | Trace => "trace"
  end.

Definition values : list t := [Get; Put; Post; Delete; Options; Head; Patch; Trace].
End HttpMethod.

#[global] Instance HttpMethod_eq_dec : EqDecision HttpMethod.t.
Proof. solve_decision. Defined.

Module Server.
Record t := mk { url : string; description : option string }.
End Server.

(** A parameter declaration. The source reads the elements of
    [operation.parameters] [as OpenAPIV3.ParameterObject] and their [in]
    [as ParamType]: the definition is taken to be dereferenced, and it is
    validated against the OpenAPI 3 grammar before a client exists.
    [required] is optional. *)
Module ParameterObject.
Record t := mk { name : string; in_ : ParamType.t; required : option bool }.
End ParameterObject.

Module OperationObject.
Record t := mk {
  operationId : option string;
  parameters : option (list ParameterObject.t);
  servers : option (list Server.t)
}.
End OperationObject.

(** A path item: its members named by an HTTP method, and the parameters
    and servers declared for the whole path. *)
Module PathItemObject.
Record t := mk {
  operation : HttpMethod.t -> option OperationObject.t;
  parameters : option (list ParameterObject.t);
  servers : option (list Server.t)
}.
End PathItemObject.

(** The description: the entries of [paths] in the order of
    [Object.entries], and the optional top-level server list. *)
Module Document.
Record t := mk {
  paths : list (string * PathItemObject.t);
  servers : option (list Server.t)
}.
End Document.

Module Operation.
Record t := mk {
  path : string;
  method : HttpMethod.t;
  operationId : option string;
  parameters : option (list ParameterObject.t);
  servers : option (list Server.t)
}.
End Operation.

(** [operation: Operation | string] *)
Inductive OperationRef :=
| OpId (operationId : string)
| Op (operation : Operation.t).

(** An explicit parameter of a ParamsArray: [{ name, value, in? }], where
    [in] is [ParamType | string]. *)
Module ExplicitParamValue.
Record t := mk { name : string; value : value; in_ : option string }.
End ExplicitParamValue.

(** The first operation argument, by the tests the binder makes on it:
    [_.isArray] (a ParamsArray), a non-array object (a ParamsObject), or a
    primitive (a single parameter, null or undefined). *)
Inductive Parameters :=
| ParamsArray (params : list ExplicitParamValue.t)
| ParamsObject (params : obj)
| SingleParam (p : prim).

(** [OperationMethodArguments]: [[params?, data?, config?]]; a missing
    element reads as undefined. [config] is an AxiosRequestConfig. *)
Module OperationMethodArguments.
Record t := mk { params : Parameters; data : value; config : option obj }.
End OperationMethodArguments.

Module RequestConfig.
Record t := mk {
  method : HttpMethod.t;
  url : string;
  path : string;
  pathParams : obj;
  query : obj;
  queryString : string;
  headers : obj;
  cookies : obj;
  payload : value
}.
End RequestConfig.

(** [number | string | Server], and undefined: the constructor option
    [withServer?:] given as undefined replaces the default [0] in the
    spread of the options. *)
Inductive DefaultServer :=
| ServerIndex (n : Z)
| ServerDescription (s : string)
| ServerObject (server : Server.t)
| ServerUndefined.

(** The members of the class that request construction reads:
    [definition] is undefined until [init] has run. *)
Record OpenAPIClientAxios := {
  definition : option Document.t;
  defaultServer : DefaultServer
}.

(** An operation method, as the configuration that it hands to
    [this.client.request]; [this] is read when the method is called. *)
Definition UnknownOperationMethod : Type :=
  OpenAPIClientAxios -> OperationMethodArguments.t -> outcome (option obj).

(** What [createAxiosInstance] adds to the instance that [axios.create]
    made: the assignment to [instance.defaults.baseURL], if any, the
    methods under the operation identifiers, and the [paths] dictionary,
    whose inner keys are the method names. *)
Module OpenAPIClient.
Record t := mk {
  baseURL : option string;
  operationMethods : gmap string UnknownOperationMethod;
  paths : gmap string (gmap string UnknownOperationMethod)
}.
End OpenAPIClient.

(** ** Path templates (the bath-es5 package) *)

Inductive segment :=
| Lit (text : string)
| Hole (name : string).

Definition lit (text : string) : list segment :=
  if String.eqb text "" then [] else [Lit text].

(** Modelled from the spec: the path pattern is a "string with named
    placeholders"; a placeholder is a non-empty name between braces. [text]
    is the literal text read so far and [hole] the name being read after an
    opening brace. *)
Fixpoint scan (s : string) (text : string) (hole : option string) : list segment :=
  match s, hole with
  | EmptyString, None => lit text
  | EmptyString, Some n => lit (text +:+ "{" +:+ n)
  | String c s', None =>
      if Ascii.eqb c "{"%char then scan s' text (Some "")
      else scan s' (text +:+ String c "") None
  | String c s', Some n =>
      if Ascii.eqb c "}"%char then
        if String.eqb n "" then scan s' (text +:+ "{}") None
        else lit text ++ Hole n :: scan s' "" None
      else scan s' text (Some (n +:+ String c ""))
  end.

Definition bath_template (template : string) : list segment := scan template "" None.

(** The pattern that a list of segments was read from. *)
Definition source (pathBuilder : list segment) : string :=
  foldr (fun s rest => match s with
                       | Lit text => text +:+ rest
                       | Hole n => "{" +:+ n +:+ "}" +:+ rest
                       end) "" pathBuilder.



(** ** The query string (the query-string package) *)

Definition hex_digit (n : N) : ascii :=
  match n with
  | 0 => "0" | 1 => "1" | 2 => "2" | 3 => "3" | 4 => "4" | 5 => "5" | 6 => "6" | 7 => "7"
  | 8 => "8" | 9 => "9" | 10 => "A" | 11 => "B" | 12 => "C" | 13 => "D" | 14 => "E"
  | _ => "F"
  end%N%char.

Definition unreserved (c : ascii) : bool :=
  let n := N_of_ascii c in
  ((48 <=? n) && (n <=? 57) || (65 <=? n) && (n <=? 90) || (97 <=? n) && (n <=? 122)
   || (n =? 45) || (n =? 46) || (n =? 95) || (n =? 126))%N.

(** strict-uri-encode over the bytes of the string. *)
Fixpoint encode (s : string) : string :=
  match s with
  | EmptyString => ""
  | String c s' =>
      if unreserved c then String c (encode s')
      else let n := N_of_ascii c in
           String "%"%char (String (hex_digit (n / 16)) (String (hex_digit (n mod 16)) (encode s')))
  end.

Definition stringify_pair (key : string) (v : value) : list string :=
  match v with
  | Prim PUndefined => []
  | Prim PNull => [encode key]
  | _ => [encode key +:+ "=" +:+ encode (to_string v)]
  end.

(** Modelled from the spec: "serialize query map to a query string using
    conventional repeat key per array element array-serialization
    semantics" ([QueryString.stringify] with [arrayFormat: 'none']): keys
    in sorted order, undefined values left out, a null value printed as the
    bare key. *)
Definition query_stringify (query : obj) : string :=
  let keys := merge_sort String.le (map fst (map_to_list query)) in
  String.concat "&"
    (flat_map (fun key =>
       match query !! key with
       | Some (VArr l) => flat_map (stringify_pair key) l
       | Some v => stringify_pair key v
       | None => []
       end) keys).

(** ** Deep merge (lodash [_.merge]) *)

Definition MAX_SAFE_INTEGER : Z := 9007199254740991.

(** The array that a source array is merged into: the destination array
    itself, the elements of a destination object that is array-like (it has
    a [length] that is a valid array length: [copyArray]), and a fresh
    array for anything else. *)
Definition arrayDestination (objValue : option value) : list value :=
  match objValue with
  | Some (VArr l) => l
  | Some (VObj m) =>
      match m !! "length" with
      | Some (num n) =>
          if bool_decide (0 <= n <= MAX_SAFE_INTEGER)%Z
          then (fun i : nat => default undefined (m !! pretty i)) <$> seq 0 (Z.to_nat n)
          else []
      | _ => []
      end
  | _ => []
  end.

(** [baseMergeDeep] of lodash 4 on these values: the value that
    [_.merge] leaves under a key that holds [objValue] in the destination
    (None: the key is missing) and [srcValue] in the source.
    - An undefined source value is skipped when the destination has the key.
    - Any other primitive is assigned.
    - A source array is merged index by index into [arrayDestination].
    - A source plain object is merged key by key into a destination plain
      object, or into a fresh object when the destination holds a primitive
      or nothing.
    The result is [None] where lodash would attach the named properties of
    a source object to a destination array, which is not one of the values
    above. *)
Fixpoint baseMergeDeep (objValue : option value) (srcValue : value) {struct srcValue} : option value :=
  match srcValue with
  | Prim PUndefined => Some (default undefined objValue)
  | Prim p => Some (Prim p)
  | VArr src =>
      VArr <$>
        (fix mergeElements (dst src : list value) {struct src} : option (list value) :=
           match src with
           | [] => Some dst
           | s :: src' =>
               v ← baseMergeDeep (head dst) s;
               rest ← mergeElements (tail dst) src';
               Some (v :: rest)
           end) (arrayDestination objValue) src
  | VObj src =>
      match objValue with
      | Some (VArr l) => if decide (src = ∅) then Some (VArr l) else None
      | _ =>
          let dst := match objValue with Some (VObj m) => m | _ => ∅ end in
          VObj <$>
            map_fold (fun key s acc =>
                        o ← acc;
                        v ← baseMergeDeep (o !! key) s;
                        Some (<[key := v]> o)) (Some dst) src
      end
  end.

(** [_.merge(object, source)] for two plain objects. *)
Definition merge (object source : obj) : option obj :=
  map_fold (fun key s acc =>
              o ← acc;
              v ← baseMergeDeep (o !! key) s;
              Some (<[key := v]> o)) (Some object) source.


(** ** The client *)

Section Client.

(** The two packages that request construction calls with the path
    pattern and with the query map: [bath(pattern)], as the segments of the
    pattern, and [QueryString.stringify(query, { arrayFormat: 'none' })]. *)
Variable bath : string -> list segment.
Variable stringify : obj -> string.

(** Modelled from the spec: [pathBuilder.names] of the path templater (the
    bath-es5 package, not under src/), which "extracts every named
    placeholder from the pattern". *)
Definition names (pathBuilder : list segment) : list string :=
  omap (fun s => match s with Hole n => Some n | Lit _ => None end) pathBuilder.

(** Modelled from the spec: [pathBuilder.path(params)] of the path
    templater (the bath-es5 package, not under src/), which for every
    placeholder takes the string form of the bound value "and substitutes
    in place". *)
Definition path (pathBuilder : list segment) (params : obj) : string :=
  String.concat ""
    (map (fun s => match s with
                   | Lit text => text
                   | Hole n => to_string (default undefined (params !! n))
                   end) pathBuilder).

(** *** The operation catalogue *)

(** [[...(own || []), ...inherited]] when the path item declares the
    member, the operation's own member otherwise. *)
Definition inherit {A : Type} (own inherited : option (list A)) : option (list A) :=
  match inherited with
  | Some l => Some (default [] own ++ l)
  | None => own
  end.

Definition getOperations (api : OpenAPIClientAxios) : list Operation.t :=
  let paths := match definition api with Some d => Document.paths d | None => [] end in
  flat_map (fun '(path, pathObject) =>
    omap (fun method =>
      match PathItemObject.operation pathObject method with
      | Some operation =>
          Some {| Operation.path := path;
                  Operation.method := method;
                  Operation.operationId := OperationObject.operationId operation;
                  Operation.parameters :=
                    inherit (OperationObject.parameters operation)
                            (PathItemObject.parameters pathObject);
                  Operation.servers :=
                    inherit (OperationObject.servers operation)
                            (PathItemObject.servers pathObject) |}
      | None => None
      end) HttpMethod.values) paths.

Definition getOperation (api : OpenAPIClientAxios) (operationId : string) : option Operation.t :=
  find (fun o => bool_decide (Operation.operationId o = Some operationId)) (getOperations api).

(** [if (typeof operation === 'string') operation = this.getOperation(operation)] *)
Definition resolve (api : OpenAPIClientAxios) (operation : OperationRef) : option Operation.t :=
  match operation with
  | OpId operationId => getOperation api operationId
  | Op o => Some o
  end.

(** *** Base URL *)

(** [servers[n]] for a number [n]. *)
Definition at_index (servers : list Server.t) (n : Z) : option Server.t :=
  if (0 <=? n)%Z then servers !! Z.to_nat n else None.

(** [operation.servers && operation.servers[0]] *)
Definition firstServer (servers : option (list Server.t)) : option Server.t :=
  match servers with
  | Some (s :: _) => Some s
  | _ => None
  end.

(** [if (operation) { ... }]: the first server of the operation, when an
    operation is given (the empty string is not) and has one. *)
Definition operationServer (api : OpenAPIClientAxios) (operation : option OperationRef)
  : outcome (option Server.t) :=
  match operation with
  | None | Some (OpId "") => Returns None
  | Some o =>
      match resolve api o with
      | Some o => Returns (firstServer (Operation.servers o))
      | None => Throws TypeError
      end
  end.

(** [targetServer], from [this.defaultServer]. The loop of the string case
    is over [this.definition.servers] as it is; the last case reads
    [this.defaultServer.url], of undefined too. *)
Definition targetServer (api : OpenAPIClientAxios) (def : Document.t)
  : outcome (option Server.t) :=
  match defaultServer api with
  | ServerIndex n =>
      Returns (match Document.servers def with
               | Some servers => at_index servers n
               | None => None
               end)
  | ServerDescription d =>
      match Document.servers def with
      | Some servers =>
          Returns (find (fun s => bool_decide (Server.description s = Some d)) servers)
      | None => Throws TypeError
      end
  | ServerObject s =>
      Returns (if truthy (str (Server.url s)) then Some s else None)
  | ServerUndefined => Throws TypeError
  end.

Definition getBaseURL (api : OpenAPIClientAxios) (operation : option OperationRef)
  : outcome (option string) :=
  match definition api with
  | None => Returns None
  | Some def =>
      let* own := operationServer api operation in
      match own with
      | Some s => Returns (Some (Server.url s))
      | None =>
          let* target := targetServer api def in
          Returns (Server.url <$> target)
      end
  end.

(** *** Binding the arguments *)

(** The four maps that [setRequestParam] fills. *)
Record RequestParams := {
  pathParams : obj;
  query : obj;
  headers : obj;
  cookies : obj
}.

Definition noParams : RequestParams :=
  {| pathParams := ∅; query := ∅; headers := ∅; cookies := ∅ |}.

(** The [switch] has no default: another [type] leaves the maps alone. *)
Definition setRequestParam (name : string) (v : value) (type : string) (st : RequestParams)
  : RequestParams :=
  if String.eqb type (ParamType.value ParamType.Path) then
    {| pathParams := <[name := v]> (pathParams st); query := query st;
       headers := headers st; cookies := cookies st |}
  else if String.eqb type (ParamType.value ParamType.Query) then
    {| pathParams := pathParams st; query := <[name := v]> (query st);
       headers := headers st; cookies := cookies st |}
  else if String.eqb type (ParamType.value ParamType.Header) then
    {| pathParams := pathParams st; query := query st;
       headers := <[name := v]> (headers st); cookies := cookies st |}
  else if String.eqb type (ParamType.value ParamType.Cookie) then
    {| pathParams := pathParams st; query := query st;
       headers := headers st; cookies := <[name := v]> (cookies st) |}
  else st.

(** [operation.parameters] as lodash reads it: nothing when undefined. *)
Definition declared (operation : Operation.t) : list ParameterObject.t :=
  default [] (Operation.parameters operation).

Definition getParamType (operation : Operation.t) (paramName : string) : ParamType.t :=
  match find (fun p => String.eqb (ParameterObject.name p) paramName) (declared operation) with
  | Some param => ParameterObject.in_ param
  | None => ParamType.Query
  end.

Definition getFirstOperationParam (operation : Operation.t) : option ParameterObject.t :=
  match find (fun p => bool_decide (ParameterObject.required p = Some true)) (declared operation) with
  | Some firstRequiredParam => Some firstRequiredParam
  | None => head (declared operation)
  end.

(** [param.in || getParamType(param.name)] *)
Definition explicitType (operation : Operation.t) (param : ExplicitParamValue.t) : string :=
  match ExplicitParamValue.in_ param with
  | Some type => if truthy (str type) then type
                 else ParamType.value (getParamType operation (ExplicitParamValue.name param))
  | None => ParamType.value (getParamType operation (ExplicitParamValue.name param))
  end.

(** The binder of [getRequestConfigForOperation]: the branches on
    [paramsArg]. null is an object with nothing to enumerate, undefined and
    null are [_.isNil]. *)
Definition bindParams (operation : Operation.t) (paramsArg : Parameters) : outcome RequestParams :=
  match paramsArg with
  | ParamsArray params =>
      Returns (foldl (fun st param =>
                 setRequestParam (ExplicitParamValue.name param) (ExplicitParamValue.value param)
                                 (explicitType operation param) st) noParams params)
  | ParamsObject params =>
      Returns (map_fold (fun name v st =>
                 if truthy v
                 then setRequestParam name v (ParamType.value (getParamType operation name)) st
                 else st) noParams params)
  | SingleParam PNull | SingleParam PUndefined => Returns noParams
  | SingleParam p =>
      match getFirstOperationParam operation with
      | None =>
          Throws (Error ("No parameters found for operation " +:+
                         opt_to_string (Operation.operationId operation)))
      | Some firstParam =>
          Returns (setRequestParam (ParameterObject.name firstParam) (Prim p)
                     (ParamType.value (ParameterObject.in_ firstParam)) noParams)
      end
  end.

(** *** The request *)

(** The loop over [pathBuilder.names]:
    [pathParams[name] = `${pathParams[name]}`]. *)
Definition setPathParams (names : list string) (pathParams : obj) : obj :=
  foldl (fun params name =>
           <[name := str (to_string (default undefined (params !! name)))]> params)
        pathParams names.

Definition getRequestConfigForOperation (api : OpenAPIClientAxios) (operation : OperationRef)
    (args : OperationMethodArguments.t) : outcome RequestConfig.t :=
  match resolve api operation with
  | None => Throws TypeError
  | Some operation =>
      let* st := bindParams operation (OperationMethodArguments.params args) in
      let pathBuilder := bath (Operation.path operation) in
      let pathParams := setPathParams (names pathBuilder) (pathParams st) in
      let path := path pathBuilder pathParams in
      let queryString := stringify (query st) in
      let* baseURL := getBaseURL api (Some (Op operation)) in
      let url := opt_to_string baseURL +:+ path +:+
                 (if truthy (str queryString) then "?" +:+ queryString else "") in
      Returns {| RequestConfig.method := Operation.method operation;
                 RequestConfig.url := url;
                 RequestConfig.path := path;
                 RequestConfig.pathParams := pathParams;
                 RequestConfig.query := query st;
                 RequestConfig.queryString := queryString;
                 RequestConfig.headers := headers st;
                 RequestConfig.cookies := cookies st;
                 RequestConfig.payload := OperationMethodArguments.data args |}
  end.

(** The object literal [axiosConfig], and [baseURL] when the operation has
    a server of its own. *)
Definition axiosConfig (operation : Operation.t) (request : RequestConfig.t) : obj :=
  let config : obj :=
    <["method" := str (HttpMethod.value (RequestConfig.method request))]>
    (<["url" := str (RequestConfig.path request)]>
    (<["data" := RequestConfig.payload request]>
    (<["params" := VObj (RequestConfig.query request)]>
    (<["headers" := VObj (RequestConfig.headers request)]> ∅)))) in
  match firstServer (Operation.servers operation) with
  | Some s => <["baseURL" := str (Server.url s)]> config
  | None => config
  end.

(** The result is [None] where the merged object is not a value of the
    model (see [baseMergeDeep]). *)
Definition getAxiosConfigForOperation (api : OpenAPIClientAxios) (operation : OperationRef)
    (args : OperationMethodArguments.t) : outcome (option obj) :=
  match resolve api operation with
  | None => Throws TypeError
  | Some operation =>
      let* request := getRequestConfigForOperation api (Op operation) args in
      let axiosConfig := axiosConfig operation request in
      Returns (match OperationMethodArguments.config args with
               | Some config => merge axiosConfig config
               | None => Some axiosConfig
               end)
  end.

(** *** The client instance *)

(** [withServer(server, variables)]. [baseURLVariables], which it also
    writes, is read by no function of the class. *)
Definition withServer (server : DefaultServer) (variables : obj) (api : OpenAPIClientAxios)
  : OpenAPIClientAxios :=
  {| definition := definition api; defaultServer := server |}.

(** [createOperationMethod(operation)], for the operation that [_.find]
    gave, if any. *)
Definition createOperationMethod (operation : option Operation.t) : UnknownOperationMethod :=
  fun api args =>
    match operation with
    | Some o => getAxiosConfigForOperation api (Op o) args
    | None => Throws TypeError
    end.

(** The loop over [operations]: [if (operationId) instance[operationId] = ...]. *)
Definition operationMethods (operations : list Operation.t) : gmap string UnknownOperationMethod :=
  foldl (fun instance operation =>
           match Operation.operationId operation with
           | Some operationId =>
               if truthy (str operationId)
               then <[operationId := createOperationMethod (Some operation)]> instance
               else instance
           | None => instance
           end) ∅ operations.

(** The loop over the members [m] of a path item, on [instance.paths[path]]:
    the members that are operations under an HTTP method. *)
Definition pathMethods (operations : list Operation.t) (path : string)
    (pathObject : PathItemObject.t) (methods : gmap string UnknownOperationMethod)
  : gmap string UnknownOperationMethod :=
  foldl (fun methods method =>
           match PathItemObject.operation pathObject method with
           | Some _ =>
               <[HttpMethod.value method :=
                   createOperationMethod
                     (find (fun o => bool_decide (Operation.path o = path /\ Operation.method o = method))
                           operations)]> methods
           | None => methods
           end) methods HttpMethod.values.

(** The loop over [this.definition.paths], entry by entry. *)
Definition pathsDictionary (operations : list Operation.t) (paths : list (string * PathItemObject.t))
  : gmap string (gmap string UnknownOperationMethod) :=
  foldl (fun dictionary '(path, pathObject) =>
           <[path := pathMethods operations path pathObject (default ∅ (dictionary !! path))]>
             dictionary) ∅ paths.

(** [createAxiosInstance], given [this.axiosConfigDefaults]. The loop over
    [this.definition.paths] reads a member of [this.definition]. The
    assignments to [instance.paths] and [instance.api] come after the loop
    over the operations and replace a method of that name. *)
Definition createAxiosInstance (api : OpenAPIClientAxios) (axiosConfigDefaults : obj)
  : outcome OpenAPIClient.t :=
  let* baseURL := getBaseURL api None in
  let assigned :=
    match baseURL with
    | Some url =>
        if truthy (str url) && negb (truthy (default undefined (axiosConfigDefaults !! "baseURL")))
        then Some url else None
    | None => None
    end in
  let operations := getOperations api in
  match definition api with
  | None => Throws TypeError
  | Some def =>
      Returns {| OpenAPIClient.baseURL := assigned;
                 OpenAPIClient.operationMethods :=
                   delete "api" (delete "paths" (operationMethods operations));
                 OpenAPIClient.paths := pathsDictionary operations (Document.paths def) |}
  end.

(** *** Notions used to state the properties *)

(** The map that [setRequestParam] fills for a location. *)
Definition paramMap (t : ParamType.t) (st : RequestParams) : obj :=
  match t with
  | ParamType.Path => pathParams st
  | ParamType.Query => query st
  | ParamType.Header => headers st
  | ParamType.Cookie => cookies st
  end.

(** The four maps of a request. *)
Definition requestParams (request : RequestConfig.t) : RequestParams :=
  {| pathParams := RequestConfig.pathParams request;
     query := RequestConfig.query request;
     headers := RequestConfig.headers request;
     cookies := RequestConfig.cookies request |}.

(** The binder returned maps that hold [v] under the name of [param] in
    the location [param] declares, and nothing else. *)
Definition bindsOnly (param : ParameterObject.t) (v : value) (bound : outcome RequestParams) : Prop :=
  exists st, bound = Returns st
    /\ paramMap (ParameterObject.in_ param) st = {[ ParameterObject.name param := v ]}
    /\ forall t, t <> ParameterObject.in_ param -> paramMap t st = ∅.

(** The integers that are numbers of JavaScript and that it prints in
    decimal digits, as [prim_to_string] does: the safe integers. *)
Definition safe_integer (z : Z) : bool :=
  bool_decide (- MAX_SAFE_INTEGER <= z <= MAX_SAFE_INTEGER)%Z.

(** The values that [to_string] prints as JavaScript does: every number
    that is printed is a safe integer. *)
Fixpoint printable (v : value) : bool :=
  match v with
  | Prim (PNum z) => safe_integer z
  | Prim _ => true
  | VArr l => forallb printable l
  | VObj _ => true
  end.

(** The keys of a mapping argument that have a truthy value and are
    classified to the location [t]. *)
Definition truthyAt (operation : Operation.t) (t : ParamType.t) (params : obj) : obj :=
  filter (fun '(name, v) => truthy v = true /\ getParamType operation name = t) params.

(** [_.isArray(paramsArg)] *)
Definition isArray (paramsArg : Parameters) : bool :=
  match paramsArg with
  | ParamsArray _ => true
  | _ => false
  end.

(** The locations whose map holds [name]. *)
Definition locations (name : string) (st : RequestParams) : list ParamType.t :=
  filter (fun t => is_Some (paramMap t st !! name))
         [ParamType.Path; ParamType.Query; ParamType.Header; ParamType.Cookie].

(** The locations other than the path whose map holds [name]. *)
Definition otherLocations (name : string) (st : RequestParams) : list ParamType.t :=
  filter (fun t => is_Some (paramMap t st !! name))
         [ParamType.Query; ParamType.Header; ParamType.Cookie].

(** The caller supplied the value [v] for [name]: in a triple of the
    sequence, under the key of the mapping, or as the single value. *)
Definition supplied (paramsArg : Parameters) (name : string) (v : value) : Prop :=
  match paramsArg with
  | ParamsArray params =>
      exists param, param ∈ params
        /\ ExplicitParamValue.name param = name
        /\ ExplicitParamValue.value param = v
  | ParamsObject params => params !! name = Some v
  | SingleParam p => v = Prim p
  end.



(** The catalogue entry of the operation that a path item holds under a
    method: the object that [getOperations] builds for it. *)
Definition catalogued (path : string) (pathObject : PathItemObject.t) (method : HttpMethod.t)
    (operation : OperationObject.t) : Operation.t :=
  {| Operation.path := path;
     Operation.method := method;
     Operation.operationId := OperationObject.operationId operation;
     Operation.parameters :=
       inherit (OperationObject.parameters operation) (PathItemObject.parameters pathObject);
     Operation.servers :=
       inherit (OperationObject.servers operation) (PathItemObject.servers pathObject) |}.

(** The operations of a list that have the identifier [operationId]. *)
Definition identified (operationId : string) (operations : list Operation.t) : list Operation.t :=
  filter (fun o => Operation.operationId o = Some operationId) operations.


(** The triples of a sequence that bind [name] go to one location: no two
    of them go to different locations, stated or declared. A mapping, a
    scalar, null and undefined hold no triples. *)
Definition oneLocation (operation : Operation.t) (name : string) (paramsArg : Parameters) : Prop :=
  match paramsArg with
  | ParamsArray params =>
      forall p q t t', p ∈ params -> q ∈ params ->
        ExplicitParamValue.name p = name -> ExplicitParamValue.name q = name ->
        explicitType operation p = ParamType.value t ->
        explicitType operation q = ParamType.value t' ->
        t = t'
  | _ => True
  end.

(** The triples of a sequence that bind [name] in the location [t]. *)
Definition triplesAt (operation : Operation.t) (t : ParamType.t) (name : string)
    (params : list ExplicitParamValue.t) : list ExplicitParamValue.t :=
  filter (fun param => ExplicitParamValue.name param = name
                       /\ explicitType operation param = ParamType.value t) params.

(** *** A description for the examples *)

Definition idParam : ParameterObject.t :=
  {| ParameterObject.name := "id"; ParameterObject.in_ := ParamType.Path;
     ParameterObject.required := Some true |}.

Definition limitParam : ParameterObject.t :=
  {| ParameterObject.name := "limit"; ParameterObject.in_ := ParamType.Query;
     ParameterObject.required := None |}.

Definition traceParam : ParameterObject.t :=
  {| ParameterObject.name := "x-trace"; ParameterObject.in_ := ParamType.Header;
     ParameterObject.required := None |}.

Definition prod : Server.t :=
  {| Server.url := "https://api.example.com"; Server.description := Some "prod" |}.

Definition staging : Server.t :=
  {| Server.url := "https://staging.example.com"; Server.description := Some "staging" |}.

Definition override : Server.t :=
  {| Server.url := "https://op-override"; Server.description := None |}.

(** [get /pets/{id}], with the optional [limit] declared before the
    required [id], and [x-trace] declared for the whole path. *)
Definition petItem : PathItemObject.t :=
  {| PathItemObject.operation := fun method =>
       match method with
       | HttpMethod.Get =>
           Some {| OperationObject.operationId := Some "getPet";
                   OperationObject.parameters := Some [limitParam; idParam];
                   OperationObject.servers := None |}
       | _ => None
       end;
     PathItemObject.parameters := Some [traceParam];
     PathItemObject.servers := None |}.

Definition petstore : Document.t :=
  {| Document.paths := [("/pets/{id}", petItem)];
     Document.servers := Some [prod; staging] |}.

Definition client : OpenAPIClientAxios :=
  {| definition := Some petstore; defaultServer := ServerIndex 0 |}.

(** The client before [init]. *)
Definition unloaded : OpenAPIClientAxios :=
  {| definition := None; defaultServer := ServerIndex 0 |}.

(** A client of the same description without its [servers], with the
    default selector [0]. *)
Definition serverless : OpenAPIClientAxios :=
  {| definition := Some {| Document.paths := [("/pets/{id}", petItem)];
                           Document.servers := None |};
     defaultServer := ServerIndex 0 |}.

Definition getPet : Operation.t :=
  {| Operation.path := "/pets/{id}"; Operation.method := HttpMethod.Get;
     Operation.operationId := Some "getPet";
     Operation.parameters := Some [limitParam; idParam; traceParam];
     Operation.servers := None |}.

(** An operation without parameters. *)
Definition listPets : Operation.t :=
  {| Operation.path := "/pets"; Operation.method := HttpMethod.Get;
     Operation.operationId := Some "listPets";
     Operation.parameters := None; Operation.servers := None |}.

(** An operation with a server of its own. *)
Definition adminPets : Operation.t :=
  {| Operation.path := "/pets"; Operation.method := HttpMethod.Get;
     Operation.operationId := Some "adminPets";
     Operation.parameters := None; Operation.servers := Some [override] |}.

Definition call (params : Parameters) : OperationMethodArguments.t :=
  {| OperationMethodArguments.params := params;
     OperationMethodArguments.data := undefined;
     OperationMethodArguments.config := None |}.





(** [get /admin/pets], under a path item that declares a server. *)
Definition adminOperation : OperationObject.t :=
  {| OperationObject.operationId := Some "adminPets";
     OperationObject.parameters := None;
     OperationObject.servers := None |}.

Definition adminItem : PathItemObject.t :=
  {| PathItemObject.operation := fun method =>
       match method with
       | HttpMethod.Get => Some adminOperation
       | _ => None
       end;
     PathItemObject.parameters := None;
     PathItemObject.servers := Some [override] |}.

(** A description whose two paths hold an operation of the same
    identifier. *)
Definition twins : Document.t :=
  {| Document.paths := [("/pets/{id}", petItem); ("/animals/{id}", petItem)];
     Document.servers := Some [prod; staging] |}.

Definition twinsClient : OpenAPIClientAxios :=
  {| definition := Some twins; defaultServer := ServerIndex 0 |}.

Definition getAnimal : Operation.t :=
  {| Operation.path := "/animals/{id}"; Operation.method := HttpMethod.Get;
     Operation.operationId := Some "getPet";
     Operation.parameters := Some [limitParam; idParam; traceParam];
     Operation.servers := None |}.

(** A triple with a location that is none of the four. *)
Definition bodyTriple : ExplicitParamValue.t :=
  {| ExplicitParamValue.name := "id"; ExplicitParamValue.value := num 1;
     ExplicitParamValue.in_ := Some "body" |}.

Definition idTriple : ExplicitParamValue.t :=
  {| ExplicitParamValue.name := "id"; ExplicitParamValue.value := num 42;
     ExplicitParamValue.in_ := None |}.

Definition limitTriple : ExplicitParamValue.t :=
  {| ExplicitParamValue.name := "limit"; ExplicitParamValue.value := num 10;
     ExplicitParamValue.in_ := Some "query" |}.

(** ** Properties *)

(** *** Path patterns *)










(** *** The binder *)

Lemma paramMap_setRequestParam (t t' : ParamType.t) (name : string) (v : value) (st : RequestParams) :
  paramMap t' (setRequestParam name v (ParamType.value t) st) =
  if decide (t' = t) then <[name := v]> (paramMap t' st) else paramMap t' st.
Proof. destruct t, t'; reflexivity. Qed.

Lemma paramMap_noParams (t : ParamType.t) : paramMap t noParams = ∅.
Proof. by destruct t. Qed.

Lemma find_first {A : Type} (f : A -> bool) (before after : list A) (x : A) :
  Forall (fun y => f y = false) before -> f x = true ->
  find f (before ++ x :: after) = Some x.
Proof.
  induction 1 as [|y before Hy _ IH]; intros Hx; simpl.
  - by rewrite Hx.
  - rewrite Hy. by apply IH.
Qed.

Lemma find_none {A : Type} (f : A -> bool) (l : list A) :
  Forall (fun y => f y = false) l -> find f l = None.
Proof. induction 1 as [|y l Hy _ IH]; simpl; [done|]. by rewrite Hy. Qed.

Lemma not_required (q : ParameterObject.t) :
  ParameterObject.required q <> Some true ->
  bool_decide (ParameterObject.required q = Some true) = false.
Proof. intros. by apply bool_decide_eq_false. Qed.

Lemma bindParams_single (operation : Operation.t) (p : prim) (firstParam : ParameterObject.t) :
  p <> PUndefined -> p <> PNull ->
  getFirstOperationParam operation = Some firstParam ->
  bindsOnly firstParam (Prim p) (bindParams operation (SingleParam p)).
Proof.
  intros Hu Hn Hfirst.
  exists (setRequestParam (ParameterObject.name firstParam) (Prim p)
            (ParamType.value (ParameterObject.in_ firstParam)) noParams).
  split; [|split].
  - unfold bindParams. rewrite Hfirst. by destruct p.
  - rewrite paramMap_setRequestParam, paramMap_noParams.
    by rewrite decide_True.
  - intros t Ht. rewrite paramMap_setRequestParam, paramMap_noParams.
    by rewrite decide_False.
Qed.

Lemma bindParams_object (operation : Operation.t) (params : obj) :
  exists st, bindParams operation (ParamsObject params) = Returns st
    /\ forall t, paramMap t st = truthyAt operation t params.
Proof.
  eexists. split; [reflexivity|].
  apply (map_fold_weak_ind (fun st m => forall t, paramMap t st = truthyAt operation t m)).
  - intros t. unfold truthyAt. by rewrite paramMap_noParams, map_filter_empty.
  - intros name v m st Hfresh IH t. unfold truthyAt in *.
    destruct (truthy v) eqn:Hv.
    + rewrite paramMap_setRequestParam, IH.
      destruct (decide (t = getParamType operation name)) as [->|Hne].
      * by rewrite map_filter_insert_True.
      * rewrite map_filter_insert_False by (intros [_ ?]; congruence).
        by rewrite delete_id.
    + rewrite IH, map_filter_insert_False by (intros [? _]; congruence).
      by rewrite delete_id.
Qed.

(** *** The path *)

Lemma setPathParams_cons (name : string) (rest : list string) (params : obj) :
  setPathParams (name :: rest) params =
  setPathParams rest (<[name := str (to_string (default undefined (params !! name)))]> params).
Proof. reflexivity. Qed.

Lemma lookup_setPathParams_other (ns : list string) (params : obj) (name : string) :
  name ∉ ns -> setPathParams ns params !! name = params !! name.
Proof.
  revert params. induction ns as [|n ns IH]; intros params Hnot; [done|].
  apply not_elem_of_cons in Hnot as [Hne Hnot].
  rewrite setPathParams_cons, IH by done.
  by rewrite lookup_insert_ne.
Qed.

Lemma lookup_setPathParams_name (ns : list string) (params : obj) (name : string) :
  name ∈ ns ->
  setPathParams ns params !! name = Some (str (to_string (default undefined (params !! name)))).
Proof.
  revert params. induction ns as [|n ns IH]; intros params Hin; [by apply elem_of_nil in Hin|].
  rewrite setPathParams_cons.
  destruct (decide (name ∈ ns)) as [Hrest|Hrest].
  - rewrite IH by done.
    destruct (decide (n = name)) as [->|Hne].
    + by rewrite lookup_insert_eq.
    + by rewrite lookup_insert_ne.
  - apply elem_of_cons in Hin as [->|?]; [|done].
    rewrite lookup_setPathParams_other by done.
    by rewrite lookup_insert_eq.
Qed.

Lemma path_setPathParams (pathBuilder : list segment) (params : obj) :
  path pathBuilder (setPathParams (names pathBuilder) params) = path pathBuilder params.
Proof.
  unfold path. f_equal. apply map_ext_in. intros [text|name] Hin; [done|].
  rewrite lookup_setPathParams_name; [done|].
  unfold names. apply list_elem_of_omap. exists (Hole name).
  split; [by apply list_elem_of_In|done].
Qed.

(** *** The request *)

(** The request that is assembled once the arguments are bound and the
    base URL is resolved. *)
Lemma getRequestConfigForOperation_returns (api : OpenAPIClientAxios) (operation : Operation.t)
    (args : OperationMethodArguments.t) (st : RequestParams) (baseURL : option string) :
  bindParams operation (OperationMethodArguments.params args) = Returns st ->
  getBaseURL api (Some (Op operation)) = Returns baseURL ->
  exists request,
    getRequestConfigForOperation api (Op operation) args = Returns request
    /\ RequestConfig.method request = Operation.method operation
    /\ RequestConfig.pathParams request =
         setPathParams (names (bath (Operation.path operation))) (pathParams st)
    /\ RequestConfig.path request = path (bath (Operation.path operation)) (pathParams st)
    /\ RequestConfig.query request = query st
    /\ RequestConfig.queryString request = stringify (query st)
    /\ RequestConfig.headers request = headers st
    /\ RequestConfig.cookies request = cookies st
    /\ RequestConfig.payload request = OperationMethodArguments.data args
    /\ RequestConfig.url request =
         opt_to_string baseURL +:+ RequestConfig.path request +:+
         (if String.eqb (RequestConfig.queryString request) "" then ""
          else "?" +:+ RequestConfig.queryString request).
Proof.
  intros Hbind Hbase. eexists. split.
  - unfold getRequestConfigForOperation. simpl. rewrite Hbind. simpl.
    rewrite Hbase. simpl. reflexivity.
  - simpl. rewrite path_setPathParams. repeat split; try done.
    by destruct (String.eqb (stringify (query st)) "").
Qed.

(** Conversely, a request is returned only from bound arguments and a
    resolved base URL. *)
Lemma getRequestConfigForOperation_inv (api : OpenAPIClientAxios) (operation : Operation.t)
    (args : OperationMethodArguments.t) (request : RequestConfig.t) :
  getRequestConfigForOperation api (Op operation) args = Returns request ->
  exists st baseURL,
    bindParams operation (OperationMethodArguments.params args) = Returns st
    /\ getBaseURL api (Some (Op operation)) = Returns baseURL.
Proof.
  unfold getRequestConfigForOperation. simpl.
  destruct (bindParams operation (OperationMethodArguments.params args)) as [st|]; [|done]. simpl.
  destruct (getBaseURL api (Some (Op operation))) as [baseURL|]; [|done].
  intros _. by exists st, baseURL.
Qed.

(** *** Binding a bare scalar *)

(** C1: a first argument that is a bare scalar is bound, under the declared
    location, to the first parameter declared [required: true] wherever it
    stands in the declaration order, and to the first declared parameter
    when none is required; for an operation that declares no parameter,
    request construction throws the error
    "No parameters found for operation <operationId>". *)
Theorem scalar_binds_first_required_param (operation : Operation.t) (p : prim) :
  p <> PUndefined -> p <> PNull ->
  (forall before firstRequired after,
      declared operation = before ++ firstRequired :: after ->
      Forall (fun q => ParameterObject.required q <> Some true) before ->
      ParameterObject.required firstRequired = Some true ->
      bindsOnly firstRequired (Prim p) (bindParams operation (SingleParam p)))
  /\ (forall first rest,
      declared operation = first :: rest ->
      Forall (fun q => ParameterObject.required q <> Some true) (first :: rest) ->
      bindsOnly first (Prim p) (bindParams operation (SingleParam p)))
  /\ (declared operation = [] ->
      forall api args, OperationMethodArguments.params args = SingleParam p ->
        getRequestConfigForOperation api (Op operation) args =
        Throws (Error ("No parameters found for operation " +:+
                       opt_to_string (Operation.operationId operation)))).
Proof.
  intros Hu Hn. split; [|split].
  - intros before firstRequired after Hdecl Hbefore Hreq.
    apply bindParams_single; [done..|].
    unfold getFirstOperationParam. rewrite Hdecl, find_first; [done| |].
    + eapply Forall_impl; [exact Hbefore|]. intros q. apply not_required.
    + by apply bool_decide_eq_true.
  - intros first rest Hdecl Hnone.
    apply bindParams_single; [done..|].
    unfold getFirstOperationParam. rewrite Hdecl, find_none; [done|].
    eapply Forall_impl; [exact Hnone|]. intros q. apply not_required.
  - intros Hdecl api args Hargs.
    unfold getRequestConfigForOperation. simpl. rewrite Hargs.
    unfold bindParams, getFirstOperationParam. rewrite Hdecl. simpl.
    by destruct p.
Qed.

(** *** Binding a mapping *)

(** C2, as amended: for a mapping argument the query, headers and cookies
    maps of the request hold exactly the keys with a truthy value that are
    classified to them (query when undeclared); pathParams holds the truthy
    keys classified to the path and, besides, every placeholder name of the
    path pattern, coerced to a string. A key with a falsy value is absent
    from query, headers and cookies, and from pathParams unless it is a
    placeholder name, where it reads "undefined". The string that a
    placeholder name holds is the string form of the value bound to it, as
    [to_string] gives it when the numbers printed are safe integers. *)
Theorem mapping_binds_truthy_keys (api : OpenAPIClientAxios) (operation : Operation.t)
    (args : OperationMethodArguments.t) (params : obj) (baseURL : option string) :
  OperationMethodArguments.params args = ParamsObject params ->
  getBaseURL api (Some (Op operation)) = Returns baseURL ->
  exists request,
    getRequestConfigForOperation api (Op operation) args = Returns request
    /\ RequestConfig.query request = truthyAt operation ParamType.Query params
    /\ RequestConfig.headers request = truthyAt operation ParamType.Header params
    /\ RequestConfig.cookies request = truthyAt operation ParamType.Cookie params
    /\ (forall name, name ∉ names (bath (Operation.path operation)) ->
          RequestConfig.pathParams request !! name =
          truthyAt operation ParamType.Path params !! name)
    /\ (forall name, name ∈ names (bath (Operation.path operation)) ->
          exists s,
            RequestConfig.pathParams request !! name = Some (str s)
            /\ (printable (default undefined (truthyAt operation ParamType.Path params !! name))
                 = true ->
                s = to_string (default undefined
                                 (truthyAt operation ParamType.Path params !! name))))
    /\ (forall name v, params !! name = Some v -> truthy v = false ->
          RequestConfig.query request !! name = None
          /\ RequestConfig.headers request !! name = None
          /\ RequestConfig.cookies request !! name = None
          /\ RequestConfig.pathParams request !! name =
               if decide (name ∈ names (bath (Operation.path operation)))
               then Some (str "undefined") else None).
Proof.
  intros Hargs Hbase.
  destruct (bindParams_object operation params) as (st & Hbind & Hmaps).
  rewrite <- Hargs in Hbind.
  destruct (getRequestConfigForOperation_returns api operation args st baseURL Hbind Hbase)
    as (request & Hreq & _ & Hpp & _ & Hq & _ & Hh & Hc & _).
  pose proof (Hmaps ParamType.Path) as HP. pose proof (Hmaps ParamType.Query) as HQ.
  pose proof (Hmaps ParamType.Header) as HH. pose proof (Hmaps ParamType.Cookie) as HC.
  simpl in HP, HQ, HH, HC.
  assert (Hfalsy : forall t name v, params !! name = Some v -> truthy v = false ->
            truthyAt operation t params !! name = None).
  { intros t name v Hv Hf. apply map_lookup_filter_None. right.
    intros v' Hv' [Ht _]. congruence. }
  exists request. rewrite Hq, Hh, Hc, Hpp, HP, HQ, HH, HC.
  split; [done|]. split; [done|]. split; [done|]. split; [done|].
  split; [by intros; apply lookup_setPathParams_other|].
  split; [by intros; eexists; split; [apply lookup_setPathParams_name|]|].
  intros name v Hv Hf. rewrite !(Hfalsy _ name v) by done.
  split; [done|]. split; [done|]. split; [done|].
  case_decide.
  - rewrite lookup_setPathParams_name by done. by rewrite (Hfalsy _ name v).
  - rewrite lookup_setPathParams_other by done. by apply (Hfalsy _ name v).
Qed.

(** *** Rendering the path *)

(** The loop over the names and the rendering, for any templater. *)
Lemma setPathParams_renders (pattern : string) (pathParams : obj) :
  let pathBuilder := bath pattern in
  let coerced := setPathParams (names pathBuilder) pathParams in
  (forall name, name ∈ names pathBuilder ->
     coerced !! name = Some (str (to_string (default undefined (pathParams !! name)))))
  /\ (forall name, name ∈ names pathBuilder -> pathParams !! name = None ->
     coerced !! name = Some (str "undefined"))
  /\ (forall name, name ∉ names pathBuilder -> coerced !! name = pathParams !! name)
  /\ path pathBuilder coerced =
     String.concat ""
       (map (fun s => match s with
                      | Lit text => text
                      | Hole name => to_string (default undefined (pathParams !! name))
                      end) pathBuilder).
Proof.
  intros pathBuilder coerced. split; [|split; [|split]].
  - intros name Hin. by apply lookup_setPathParams_name.
  - intros name Hin Hnone. unfold coerced.
    rewrite lookup_setPathParams_name by done. by rewrite Hnone.
  - intros name Hnot. by apply lookup_setPathParams_other.
  - unfold coerced. by rewrite path_setPathParams.
Qed.

(** *** The base URL *)

Lemma getBaseURL_unloaded (api : OpenAPIClientAxios) (operation : option OperationRef) :
  definition api = None -> getBaseURL api operation = Returns None.
Proof. unfold getBaseURL. by intros ->. Qed.

Lemma getBaseURL_target (api : OpenAPIClientAxios) (def : Document.t)
    (operation : option OperationRef) :
  definition api = Some def ->
  operationServer api operation = Returns None ->
  getBaseURL api operation =
  let* target := targetServer api def in Returns (Server.url <$> target).
Proof. unfold getBaseURL. by intros -> ->. Qed.

(** A string selector on a description without a server list: the loop
    over [this.definition.servers] throws. *)
Lemma getBaseURL_description_without_servers (api : OpenAPIClientAxios) (def : Document.t)
    (operation : option OperationRef) (d : string) :
  definition api = Some def ->
  operationServer api operation = Returns None ->
  defaultServer api = ServerDescription d ->
  Document.servers def = None ->
  getBaseURL api operation = Throws TypeError.
Proof.
  intros Hdef Hown Hsel Hservers. rewrite (getBaseURL_target api def) by done.
  unfold targetServer. by rewrite Hsel, Hservers.
Qed.

(** The url of a request built without a base URL starts with the text
    "undefined". *)
Lemma url_without_base_url (api : OpenAPIClientAxios) (operation : Operation.t)
    (args : OperationMethodArguments.t) (st : RequestParams) :
  bindParams operation (OperationMethodArguments.params args) = Returns st ->
  getBaseURL api (Some (Op operation)) = Returns None ->
  exists request,
    getRequestConfigForOperation api (Op operation) args = Returns request
    /\ RequestConfig.url request =
         "undefined" +:+ RequestConfig.path request +:+
         (if String.eqb (RequestConfig.queryString request) "" then ""
          else "?" +:+ RequestConfig.queryString request).
Proof.
  intros Hbind Hbase.
  destruct (getRequestConfigForOperation_returns api operation args st None Hbind Hbase)
    as (request & Hreq & H). exists request. split; [done|]. apply H.
Qed.

(** C6, as amended: once a description is loaded, an operation that
    declares a non-empty server list resolves to the URL of the first entry
    of that list, whatever the default-server selector is; while no
    description is loaded the base URL is absent. *)
Theorem operation_server_overrides_selector (def : Document.t) (selector : DefaultServer)
    (operation : Operation.t) (first : Server.t) (rest : list Server.t) :
  Operation.servers operation = Some (first :: rest) ->
  getBaseURL {| definition := Some def; defaultServer := selector |} (Some (Op operation))
    = Returns (Some (Server.url first))
  /\ getBaseURL {| definition := None; defaultServer := selector |} (Some (Op operation))
    = Returns None.
Proof.
  intros Hservers. split; [|done].
  unfold getBaseURL, operationServer. simpl. by rewrite Hservers.
Qed.

(** C7, as amended: with a description loaded and no server of the
    operation's own, a string selector resolves to the URL of the first
    server of the top-level list whose description is the selector, and to
    nothing when the list has no such server; a numeric selector resolves
    to the server at that index of the list; an origin object resolves to
    its URL when that URL is not empty, and to nothing when it is. *)
Theorem default_server_selection (def : Document.t) (selector : DefaultServer)
    (operation : option OperationRef) :
  let api := {| definition := Some def; defaultServer := selector |} in
  operationServer api operation = Returns None ->
  (forall d before s after,
      selector = ServerDescription d ->
      Document.servers def = Some (before ++ s :: after) ->
      Forall (fun x => Server.description x <> Some d) before ->
      Server.description s = Some d ->
      getBaseURL api operation = Returns (Some (Server.url s)))
  /\ (forall d servers,
      selector = ServerDescription d ->
      Document.servers def = Some servers ->
      Forall (fun x => Server.description x <> Some d) servers ->
      getBaseURL api operation = Returns None)
  /\ (forall n servers s,
      selector = ServerIndex n ->
      Document.servers def = Some servers ->
      (0 <= n)%Z -> servers !! Z.to_nat n = Some s ->
      getBaseURL api operation = Returns (Some (Server.url s)))
  /\ (forall s,
      selector = ServerObject s ->
      getBaseURL api operation =
      Returns (if String.eqb (Server.url s) "" then None else Some (Server.url s))).
Proof.
  intros api Hown.
  assert (Hnot : forall d x, Server.description x <> Some d ->
            bool_decide (Server.description x = Some d) = false).
  { intros. by apply bool_decide_eq_false. }
  repeat split.
  - intros d before s after -> Hservers Hbefore Hs.
    rewrite (getBaseURL_target api def) by done. unfold targetServer. simpl.
    rewrite Hservers, find_first; [done| |by apply bool_decide_eq_true].
    eapply Forall_impl; [exact Hbefore|]. intros x. apply Hnot.
  - intros d servers -> Hservers Hnone.
    rewrite (getBaseURL_target api def) by done. unfold targetServer. simpl.
    rewrite Hservers, find_none; [done|].
    eapply Forall_impl; [exact Hnone|]. intros x. apply Hnot.
  - intros n servers s -> Hservers Hn Hs.
    rewrite (getBaseURL_target api def) by done. unfold targetServer, at_index. simpl.
    rewrite Hservers. destruct (0 <=? n)%Z eqn:Hle; [|lia]. by rewrite Hs.
  - intros s ->.
    rewrite (getBaseURL_target api def) by done. unfold targetServer. simpl.
    by destruct (String.eqb (Server.url s) "").
Qed.

(** *** The operation catalogue *)

Lemma HttpMethod_values_all (method : HttpMethod.t) : method ∈ HttpMethod.values.
Proof. unfold HttpMethod.values. destruct method; set_solver. Qed.

Lemma find_app_l {A : Type} (f : A -> bool) (l1 l2 : list A) (x : A) :
  find f l1 = Some x -> find f (l1 ++ l2) = Some x.
Proof.
  induction l1 as [|y l1 IH]; simpl; [done|]. by destruct (f y).
Qed.

Lemma find_app_r {A : Type} (f : A -> bool) (l1 l2 : list A) :
  find f l1 = None -> find f (l1 ++ l2) = find f l2.
Proof.
  induction l1 as [|y l1 IH]; simpl; [done|]. by destruct (f y).
Qed.

(** C8: the parameters a path item declares are in the parameter list of
    every operation under that path, after the operation's own: a name
    declared at both levels is classified by the operation's declaration,
    and a name declared for the path only by the path's. *)
Theorem path_parameters_are_inherited (api : OpenAPIClientAxios) (def : Document.t)
    (path : string) (pathObject : PathItemObject.t) (method : HttpMethod.t)
    (operation : OperationObject.t) (inherited : list ParameterObject.t) :
  definition api = Some def ->
  (path, pathObject) ∈ Document.paths def ->
  PathItemObject.operation pathObject method = Some operation ->
  PathItemObject.parameters pathObject = Some inherited ->
  let own := default [] (OperationObject.parameters operation) in
  exists o,
    o ∈ getOperations api
    /\ Operation.path o = path
    /\ Operation.method o = method
    /\ Operation.operationId o = OperationObject.operationId operation
    /\ declared o = own ++ inherited
    /\ (forall p, p ∈ inherited -> p ∈ declared o)
    /\ (forall name p,
          find (fun q => String.eqb (ParameterObject.name q) name) own = Some p ->
          getParamType o name = ParameterObject.in_ p)
    /\ (forall name p,
          find (fun q => String.eqb (ParameterObject.name q) name) own = None ->
          find (fun q => String.eqb (ParameterObject.name q) name) inherited = Some p ->
          getParamType o name = ParameterObject.in_ p).
Proof.
  intros Hdef Hpath Hop Hinh own.
  eexists {| Operation.path := path; Operation.method := method |}.
  split.
  - unfold getOperations. rewrite Hdef.
    apply list_elem_of_In, in_flat_map. exists (path, pathObject).
    split; [by apply list_elem_of_In|].
    apply list_elem_of_In, list_elem_of_omap. exists method.
    split; [apply HttpMethod_values_all|]. rewrite Hop. reflexivity.
  - unfold declared, getParamType, declared. simpl. rewrite Hinh. simpl.
    repeat split.
    + intros p Hp. apply elem_of_app. by right.
    + intros name p Hfind. by rewrite (find_app_l _ _ _ p).
    + intros name p Hnone Hfind. by rewrite find_app_r, Hfind.
Qed.

(** *** One location per name *)

Lemma getRequestConfigForOperation_maps (api : OpenAPIClientAxios) (operation : Operation.t)
    (args : OperationMethodArguments.t) (request : RequestConfig.t) :
  getRequestConfigForOperation api (Op operation) args = Returns request ->
  exists st,
    bindParams operation (OperationMethodArguments.params args) = Returns st
    /\ RequestConfig.pathParams request =
         setPathParams (names (bath (Operation.path operation))) (pathParams st)
    /\ RequestConfig.query request = query st
    /\ RequestConfig.headers request = headers st
    /\ RequestConfig.cookies request = cookies st
    /\ RequestConfig.payload request = OperationMethodArguments.data args.
Proof.
  intros Hreq.
  destruct (getRequestConfigForOperation_inv _ _ _ _ Hreq) as (st & baseURL & Hbind & Hbase).
  destruct (getRequestConfigForOperation_returns api operation args st baseURL Hbind Hbase)
    as (request' & Hreq' & _ & Hpp & _ & Hq & _ & Hh & Hc & Hpay & _).
  assert (request' = request) as -> by congruence.
  by exists st.
Qed.

Lemma bindParams_single_inv (operation : Operation.t) (p : prim) (st : RequestParams) :
  bindParams operation (SingleParam p) = Returns st ->
  st = noParams
  \/ exists firstParam,
       st = setRequestParam (ParameterObject.name firstParam) (Prim p)
              (ParamType.value (ParameterObject.in_ firstParam)) noParams.
Proof.
  unfold bindParams.
  destruct (getFirstOperationParam operation) as [firstParam|];
    destruct p; intros H; try discriminate; injection H as <-;
    (by left) || (right; by exists firstParam).
Qed.

Lemma bindParams_one_location (operation : Operation.t) (paramsArg : Parameters)
    (st : RequestParams) (name : string) (t t' : ParamType.t) :
  isArray paramsArg = false ->
  bindParams operation paramsArg = Returns st ->
  is_Some (paramMap t st !! name) -> is_Some (paramMap t' st !! name) -> t = t'.
Proof.
  intros Harr Hbind. destruct paramsArg as [params|params|p]; [done| |].
  - destruct (bindParams_object operation params) as (st' & Hbind' & Hmaps).
    assert (st' = st) as -> by congruence.
    rewrite !Hmaps. unfold truthyAt.
    intros [v [_ [_ Ht]]%map_lookup_filter_Some] [v' [_ [_ Ht']]%map_lookup_filter_Some].
    congruence.
  - apply bindParams_single_inv in Hbind as [->|[firstParam ->]].
    + rewrite paramMap_noParams, lookup_empty. by intros [? ?].
    + rewrite !paramMap_setRequestParam, !paramMap_noParams.
      repeat case_decide; rewrite ?lookup_empty; [congruence|by intros _ [? ?]|by intros [? ?]..].
Qed.

Lemma locations_at_most_one (name : string) (st : RequestParams) :
  (forall t t', is_Some (paramMap t st !! name) -> is_Some (paramMap t' st !! name) -> t = t') ->
  length (locations name st) <= 1.
Proof.
  intros Hone. unfold locations.
  pose proof (Hone ParamType.Path ParamType.Query).
  pose proof (Hone ParamType.Path ParamType.Header).
  pose proof (Hone ParamType.Path ParamType.Cookie).
  pose proof (Hone ParamType.Query ParamType.Header).
  pose proof (Hone ParamType.Query ParamType.Cookie).
  pose proof (Hone ParamType.Header ParamType.Cookie).
  rewrite !filter_cons, filter_nil.
  repeat case_decide; simpl; try lia; exfalso; naive_solver.
Qed.

Lemma otherLocations_at_most_one (name : string) (st : RequestParams) :
  (forall t t', is_Some (paramMap t st !! name) -> is_Some (paramMap t' st !! name) -> t = t') ->
  length (otherLocations name st) <= 1.
Proof.
  intros Hone. unfold otherLocations.
  pose proof (Hone ParamType.Query ParamType.Header).
  pose proof (Hone ParamType.Query ParamType.Cookie).
  pose proof (Hone ParamType.Header ParamType.Cookie).
  rewrite !filter_cons, filter_nil.
  repeat case_decide; simpl; try lia; exfalso; naive_solver.
Qed.

(** *** Values are passed on as supplied *)

Lemma setRequestParam_lookup (t : ParamType.t) (name name' : string) (v v' : value)
    (type : string) (st : RequestParams) :
  paramMap t (setRequestParam name v type st) !! name' = Some v' ->
  paramMap t st !! name' = Some v' \/ (name' = name /\ v' = v).
Proof.
  unfold setRequestParam.
  repeat case_match; destruct t; simpl; try (by left);
    (destruct (decide (name = name')) as [->|?];
     [rewrite lookup_insert_eq; right; split; congruence
     |rewrite lookup_insert_ne by done; by left]).
Qed.

Lemma bindParams_array_supplied (operation : Operation.t) (params : list ExplicitParamValue.t)
    (st0 : RequestParams) (t : ParamType.t) (name : string) (v : value) :
  paramMap t (foldl (fun st param =>
                setRequestParam (ExplicitParamValue.name param) (ExplicitParamValue.value param)
                                (explicitType operation param) st) st0 params) !! name = Some v ->
  paramMap t st0 !! name = Some v \/ supplied (ParamsArray params) name v.
Proof.
  revert st0. induction params as [|param params IH]; intros st0; simpl; [by left|].
  intros [H|(param' & Hin & Hn & Hv)]%IH.
  - apply setRequestParam_lookup in H as [H|[-> ->]]; [by left|].
    right. exists param. split; [apply list_elem_of_here|done].
  - right. exists param'. split; [by apply list_elem_of_further|done].
Qed.

Lemma bindParams_supplied (operation : Operation.t) (paramsArg : Parameters)
    (st : RequestParams) (t : ParamType.t) (name : string) (v : value) :
  bindParams operation paramsArg = Returns st ->
  paramMap t st !! name = Some v -> supplied paramsArg name v.
Proof.
  intros Hbind. destruct paramsArg as [params|params|p].
  - injection Hbind as <-. intros [H|H]%bindParams_array_supplied; [|done].
    by rewrite paramMap_noParams, lookup_empty in H.
  - destruct (bindParams_object operation params) as (st' & Hbind' & Hmaps).
    assert (st' = st) as -> by congruence.
    rewrite Hmaps. unfold truthyAt. by intros [? _]%map_lookup_filter_Some.
  - apply bindParams_single_inv in Hbind as [->|[firstParam ->]].
    + by rewrite paramMap_noParams, lookup_empty.
    + intros [H|[_ ->]]%setRequestParam_lookup; [|done].
      by rewrite paramMap_noParams, lookup_empty in H.
Qed.

(** C10: the payload and the values of the query, headers and cookies maps
    of a request are the values the caller supplied, unchanged; so are the
    values of pathParams under names that are not placeholders of the path
    pattern; the placeholder names alone hold coerced strings. *)
Theorem only_placeholder_values_are_coerced (api : OpenAPIClientAxios)
    (operation : Operation.t) (args : OperationMethodArguments.t) (request : RequestConfig.t) :
  getRequestConfigForOperation api (Op operation) args = Returns request ->
  RequestConfig.payload request = OperationMethodArguments.data args
  /\ (forall name v, RequestConfig.query request !! name = Some v ->
        supplied (OperationMethodArguments.params args) name v)
  /\ (forall name v, RequestConfig.headers request !! name = Some v ->
        supplied (OperationMethodArguments.params args) name v)
  /\ (forall name v, RequestConfig.cookies request !! name = Some v ->
        supplied (OperationMethodArguments.params args) name v)
  /\ (forall name v, name ∉ names (bath (Operation.path operation)) ->
        RequestConfig.pathParams request !! name = Some v ->
        supplied (OperationMethodArguments.params args) name v)
  /\ (forall name, name ∈ names (bath (Operation.path operation)) ->
        exists s, RequestConfig.pathParams request !! name = Some (str s)).
Proof.
  intros Hreq.
  destruct (getRequestConfigForOperation_maps _ _ _ _ Hreq)
    as (st & Hbind & Hpp & Hq & Hh & Hc & Hpay).
  rewrite Hpp, Hq, Hh, Hc. split; [done|].
  split; [intros name v; apply (bindParams_supplied operation _ st ParamType.Query); done|].
  split; [intros name v; apply (bindParams_supplied operation _ st ParamType.Header); done|].
  split; [intros name v; apply (bindParams_supplied operation _ st ParamType.Cookie); done|].
  split.
  - intros name v Hname. rewrite lookup_setPathParams_other by done.
    by apply (bindParams_supplied operation _ st ParamType.Path).
  - intros name Hname. rewrite lookup_setPathParams_name by done. by eexists.
Qed.

(** *** The deep merge *)







(** [_.merge] returns when every member of the source merges. *)
Lemma merge_is_Some (object source : obj) :
  (forall key s, source !! key = Some s -> is_Some (baseMergeDeep (object !! key) s)) ->
  exists merged, merge object source = Some merged
    /\ forall key, source !! key = None -> merged !! key = object !! key.
Proof.
  unfold merge.
  apply (map_fold_weak_ind (fun acc (m : obj) =>
    (forall key s, m !! key = Some s -> is_Some (baseMergeDeep (object !! key) s)) ->
    exists o, acc = Some o /\ forall key, m !! key = None -> o !! key = object !! key)).
  - intros _. by exists object.
  - intros k s m acc Hfresh IH Hall.
    destruct IH as (o & -> & Hsame).
    { intros key s' Hs'. apply Hall. rewrite lookup_insert_ne; [done|]. congruence. }
    simpl. rewrite (Hsame k Hfresh).
    destruct (Hall k s) as [v Hv]; [by rewrite lookup_insert_eq|].
    rewrite Hv. simpl. eexists. split; [done|].
    intros key Hkey. apply lookup_insert_None in Hkey as [Hkey Hne].
    rewrite lookup_insert_ne by done. by apply Hsame.
Qed.




(** The configuration is returned, as a value of the model, when the
    request is built and every member of the override merges. *)
Lemma getAxiosConfigForOperation_returns (api : OpenAPIClientAxios) (operation : Operation.t)
    (args : OperationMethodArguments.t) (config : obj) (request : RequestConfig.t) :
  OperationMethodArguments.config args = Some config ->
  getRequestConfigForOperation api (Op operation) args = Returns request ->
  (forall key s, config !! key = Some s ->
     is_Some (baseMergeDeep (axiosConfig operation request !! key) s)) ->
  exists merged, getAxiosConfigForOperation api (Op operation) args = Returns (Some merged).
Proof.
  intros Hconfig Hreq Hall. unfold getAxiosConfigForOperation. simpl.
  rewrite Hreq. simpl. rewrite Hconfig.
  destruct (merge_is_Some _ _ Hall) as (merged & -> & _). by exists merged.
Qed.


(** ** Further properties *)

(** *** The operation catalogue *)

Lemma find_Some_split {A : Type} (f : A -> bool) (l : list A) (x : A) :
  find f l = Some x ->
  exists before after, l = before ++ x :: after
    /\ f x = true /\ Forall (fun y => f y = false) before.
Proof.
  induction l as [|y l IH]; simpl; [done|].
  destruct (f y) eqn:Hy.
  - intros [= ->]. by exists [], l.
  - intros (before & after & -> & Hx & Hbefore)%IH.
    exists (y :: before), after. split; [done|]. split; [done|]. by constructor.
Qed.

Lemma find_None_Forall {A : Type} (f : A -> bool) (l : list A) :
  find f l = None <-> Forall (fun y => f y = false) l.
Proof.
  split; [|apply find_none].
  induction l as [|y l IH]; simpl; [by constructor|].
  destruct (f y) eqn:Hy; [done|]. intros H. constructor; [done|by apply IH].
Qed.

Lemma getOperations_catalogued (api : OpenAPIClientAxios) (o : Operation.t) :
  o ∈ getOperations api <->
  exists def path pathObject method operation,
    definition api = Some def
    /\ (path, pathObject) ∈ Document.paths def
    /\ PathItemObject.operation pathObject method = Some operation
    /\ o = catalogued path pathObject method operation.
Proof.
  unfold getOperations. rewrite list_elem_of_In, in_flat_map. split.
  - intros ([path pathObject] & Hpath & Ho).
    apply list_elem_of_In, list_elem_of_omap in Ho as (method & _ & Ho).
    destruct (definition api) as [def|]; [|done].
    destruct (PathItemObject.operation pathObject method) as [operation|] eqn:Hop; [|done].
    injection Ho as <-.
    exists def, path, pathObject, method, operation.
    by rewrite list_elem_of_In.
  - intros (def & path & pathObject & method & operation & -> & Hpath & Hop & ->).
    exists (path, pathObject). split; [by apply list_elem_of_In|].
    apply list_elem_of_In, list_elem_of_omap. exists method.
    split; [apply HttpMethod_values_all|]. by rewrite Hop.
Qed.

(** X1: [getOperation] gives the first operation of the catalogue that has
    the identifier, and nothing exactly when no operation of the catalogue
    has it. *)
Theorem getOperation_is_first_match (api : OpenAPIClientAxios) (operationId : string) :
  (forall o, getOperation api operationId = Some o ->
     exists before after,
       getOperations api = before ++ o :: after
       /\ Operation.operationId o = Some operationId
       /\ Forall (fun x => Operation.operationId x <> Some operationId) before)
  /\ (getOperation api operationId = None <->
      Forall (fun x => Operation.operationId x <> Some operationId) (getOperations api)).
Proof.
  unfold getOperation. split.
  - intros o (before & after & Hsplit & Ho & Hbefore)%find_Some_split.
    exists before, after. split; [done|].
    split; [by apply bool_decide_eq_true in Ho|].
    eapply Forall_impl; [exact Hbefore|]. intros x Hx. by apply bool_decide_eq_false in Hx.
  - rewrite find_None_Forall. split; intros H; (eapply Forall_impl; [exact H|]); intros x Hx.
    + by apply bool_decide_eq_false in Hx.
    + by apply bool_decide_eq_false.
Qed.

(** X2: the catalogue holds exactly one entry for every operation that a
    path item of the loaded description holds under an HTTP method, with
    the path, the method, the identifier and the inherited parameters and
    servers; without a description it is empty. *)
Theorem getOperations_are_the_described (api : OpenAPIClientAxios) :
  (forall o, o ∈ getOperations api <->
     exists def path pathObject method operation,
       definition api = Some def
       /\ (path, pathObject) ∈ Document.paths def
       /\ PathItemObject.operation pathObject method = Some operation
       /\ o = catalogued path pathObject method operation)
  /\ (definition api = None -> getOperations api = [])
  /\ (forall def,
        definition api = Some def ->
        length (getOperations api) =
        sum_list (map (fun '(_, pathObject) =>
                    length (filter (fun method => is_Some (PathItemObject.operation pathObject method))
                                   HttpMethod.values))
                  (Document.paths def))).
Proof.
  split; [apply getOperations_catalogued|]. split.
  - unfold getOperations. by intros ->.
  - intros def Hdef. unfold getOperations. rewrite Hdef.
    generalize HttpMethod.values. intros values.
    induction (Document.paths def) as [|[path pathObject] paths IH]; [done|].
    simpl. rewrite length_app, IH. f_equal. clear IH.
    induction values as [|method methods IHm]; [done|].
    simpl. rewrite filter_cons.
    destruct (PathItemObject.operation pathObject method) as [operation|]; simpl;
      [f_equal; exact IHm|exact IHm].
Qed.

Lemma find_by_path_and_method_aux (api : OpenAPIClientAxios) (def : Document.t)
    (path : string) (pathObject : PathItemObject.t) (method : HttpMethod.t)
    (operation : OperationObject.t) :
  definition api = Some def ->
  NoDup (Document.paths def).*1 ->
  (path, pathObject) ∈ Document.paths def ->
  PathItemObject.operation pathObject method = Some operation ->
  find (fun o => bool_decide (Operation.path o = path /\ Operation.method o = method))
       (getOperations api)
  = Some (catalogued path pathObject method operation).
Proof.
  intros Hdef Hnodup Hpath Hop.
  destruct (find _ (getOperations api)) as [o|] eqn:Hfind.
  - apply find_some in Hfind as [Hin Ho].
    apply bool_decide_eq_true in Ho as [Ho1 Ho2].
    apply list_elem_of_In, getOperations_catalogued in Hin
      as (def' & path' & pathObject' & method' & operation' & Hdef' & Hpath' & Hop' & ->).
    simpl in Ho1, Ho2. subst path' method'.
    assert (def' = def) as -> by congruence.
    assert (pathObject' = pathObject) as ->.
    { apply list_elem_of_lookup in Hpath as [i Hi], Hpath' as [j Hj].
      assert (i = j) as ->; [|congruence].
      eapply NoDup_lookup; [exact Hnodup| |];
        rewrite list_lookup_fmap; [by rewrite Hi|by rewrite Hj]. }
    congruence.
  - exfalso. apply find_None_Forall in Hfind. rewrite Forall_forall in Hfind.
    assert (Hin : catalogued path pathObject method operation ∈ getOperations api).
    { apply getOperations_catalogued. by exists def, path, pathObject, method, operation. }
    apply Hfind in Hin. simpl in Hin. apply bool_decide_eq_false in Hin. by apply Hin.
Qed.

(** X3: when the paths of the description are distinct, the first
    operation of the catalogue with a path and a method, which the paths
    dictionary looks up, is the entry of the operation held there. *)
Theorem find_by_path_and_method (api : OpenAPIClientAxios) (def : Document.t)
    (path : string) (pathObject : PathItemObject.t) (method : HttpMethod.t)
    (operation : OperationObject.t) :
  definition api = Some def ->
  NoDup (Document.paths def).*1 ->
  (path, pathObject) ∈ Document.paths def ->
  PathItemObject.operation pathObject method = Some operation ->
  find (fun o => bool_decide (Operation.path o = path /\ Operation.method o = method))
       (getOperations api)
  = Some (catalogued path pathObject method operation).
Proof. apply find_by_path_and_method_aux. Qed.

(** X4: with a description loaded, an operation of the catalogue under a
    path item that declares servers resolves to the first server of its
    own when it has one and to the first server of the path item
    otherwise, whatever the default-server selector is. *)
Theorem path_servers_are_inherited (def : Document.t) (selector : DefaultServer)
    (path : string) (pathObject : PathItemObject.t) (method : HttpMethod.t)
    (operation : OperationObject.t) (first : Server.t) (rest : list Server.t) :
  PathItemObject.servers pathObject = Some (first :: rest) ->
  Operation.servers (catalogued path pathObject method operation)
    = Some (default [] (OperationObject.servers operation) ++ first :: rest)
  /\ getBaseURL {| definition := Some def; defaultServer := selector |}
       (Some (Op (catalogued path pathObject method operation)))
     = Returns (Some (Server.url (default first (firstServer (OperationObject.servers operation))))).
Proof.
  intros Hservers. split.
  - simpl. by rewrite Hservers.
  - unfold getBaseURL, operationServer. simpl. rewrite Hservers. simpl.
    by destruct (OperationObject.servers operation) as [[|own owns]|].
Qed.

(** X5: an operation given by an identifier is the operation that
    [getOperation] finds: the request, the transport configuration and,
    for a non-empty identifier, the base URL are those of that operation;
    when the catalogue has no such operation, the three throw a TypeError
    (the base URL only once a description is loaded), and for the empty
    identifier the base URL is the one resolved without an operation. *)
Theorem operation_given_by_identifier (api : OpenAPIClientAxios) (operationId : string)
    (args : OperationMethodArguments.t) :
  match getOperation api operationId with
  | Some o =>
      getRequestConfigForOperation api (OpId operationId) args
        = getRequestConfigForOperation api (Op o) args
      /\ getAxiosConfigForOperation api (OpId operationId) args
        = getAxiosConfigForOperation api (Op o) args
      /\ (operationId <> "" ->
          getBaseURL api (Some (OpId operationId)) = getBaseURL api (Some (Op o)))
  | None =>
      getRequestConfigForOperation api (OpId operationId) args = Throws TypeError
      /\ getAxiosConfigForOperation api (OpId operationId) args = Throws TypeError
      /\ (operationId <> "" -> forall def, definition api = Some def ->
          getBaseURL api (Some (OpId operationId)) = Throws TypeError)
  end
  /\ getBaseURL api (Some (OpId "")) = getBaseURL api None.
Proof.
  split; [|done].
  assert (Hserver : operationId <> "" ->
            operationServer api (Some (OpId operationId)) =
            match getOperation api operationId with
            | Some o => Returns (firstServer (Operation.servers o))
            | None => Throws TypeError
            end).
  { intros Hne. by destruct operationId. }
  assert (Hresolve : resolve api (OpId operationId) = getOperation api operationId) by done.
  destruct (getOperation api operationId) as [o|] eqn:Ho.
  - split; [|split].
    + unfold getRequestConfigForOperation. by rewrite Hresolve.
    + unfold getAxiosConfigForOperation. by rewrite Hresolve.
    + intros Hne. unfold getBaseURL. by rewrite Hserver.
  - split; [|split].
    + unfold getRequestConfigForOperation. by rewrite Hresolve.
    + unfold getAxiosConfigForOperation. by rewrite Hresolve.
    + intros Hne def Hdef. unfold getBaseURL. by rewrite Hdef, Hserver.
Qed.

(** *** Explicit triples *)

Lemma ParamType_value_inj (t t' : ParamType.t) :
  ParamType.value t = ParamType.value t' -> t = t'.
Proof. by destruct t, t'. Qed.

Lemma setRequestParam_lookup_eq (t : ParamType.t) (name name' : string) (v : value)
    (type : string) (st : RequestParams) :
  paramMap t (setRequestParam name v type st) !! name' =
  if decide (name = name' /\ type = ParamType.value t) then Some v
  else paramMap t st !! name'.
Proof.
  unfold setRequestParam.
  destruct (String.eqb_spec type (ParamType.value ParamType.Path)) as [->|H1];
    [|destruct (String.eqb_spec type (ParamType.value ParamType.Query)) as [->|H2];
      [|destruct (String.eqb_spec type (ParamType.value ParamType.Header)) as [->|H3];
        [|destruct (String.eqb_spec type (ParamType.value ParamType.Cookie)) as [->|H4]]]].
  1-4: destruct t; simpl; case_decide as Hd;
    try (destruct Hd as [-> Hd]; try discriminate Hd; by rewrite lookup_insert_eq);
    try done;
    (destruct (decide (name = name')) as [->|Hne];
     [exfalso; apply Hd; by split|by rewrite lookup_insert_ne]).
  rewrite decide_False; [done|]. intros [_ ->]. by destruct t.
Qed.

Lemma last_cons_default {A : Type} (x : A) (l : list A) :
  last (x :: l) = Some (default x (last l)).
Proof.
  revert x. induction l as [|y l IH]; intros x; [done|].
  change (last (x :: y :: l)) with (last (y :: l)). by rewrite !IH.
Qed.

Lemma bindParams_array_lookup (operation : Operation.t) (params : list ExplicitParamValue.t)
    (st0 : RequestParams) (t : ParamType.t) (name : string) :
  paramMap t (foldl (fun st param =>
                setRequestParam (ExplicitParamValue.name param) (ExplicitParamValue.value param)
                                (explicitType operation param) st) st0 params) !! name =
  match last (triplesAt operation t name params) with
  | Some param => Some (ExplicitParamValue.value param)
  | None => paramMap t st0 !! name
  end.
Proof.
  revert st0. induction params as [|param params IH]; intros st0; [done|].
  simpl. rewrite IH. unfold triplesAt. rewrite filter_cons.
  rewrite setRequestParam_lookup_eq.
  case_decide as Hd; [|done].
  rewrite last_cons_default. by destruct (last _).
Qed.

Lemma bindParams_agreeing_location (operation : Operation.t) (paramsArg : Parameters)
    (st : RequestParams) (name : string) (t t' : ParamType.t) :
  oneLocation operation name paramsArg ->
  bindParams operation paramsArg = Returns st ->
  is_Some (paramMap t st !! name) -> is_Some (paramMap t' st !! name) -> t = t'.
Proof.
  intros Hone Hbind Ht Ht'.
  destruct (isArray paramsArg) eqn:Harr;
    [|by apply (bindParams_one_location operation paramsArg st name)].
  destruct paramsArg as [params| |]; [|done..]. simpl in Hone, Hbind.
  injection Hbind as <-.
  assert (Htriple : forall t, is_Some (paramMap t
             (foldl (fun st param =>
                       setRequestParam (ExplicitParamValue.name param)
                         (ExplicitParamValue.value param) (explicitType operation param) st)
                    noParams params) !! name) ->
            exists p, p ∈ params /\ ExplicitParamValue.name p = name
                      /\ explicitType operation p = ParamType.value t).
  { intros t0. rewrite bindParams_array_lookup, paramMap_noParams, lookup_empty.
    destruct (last (triplesAt operation t0 name params)) as [p|] eqn:Hlast;
      [|by intros [? ?]].
    intros _. apply last_Some_elem_of in Hlast.
    apply list_elem_of_filter in Hlast as [[? ?] ?]. by exists p. }
  destruct (Htriple t Ht) as (p & Hp & Hpname & Hptype).
  destruct (Htriple t' Ht') as (q & Hq & Hqname & Hqtype).
  by apply (Hone p q).
Qed.

Lemma locations_two (name : string) (st : RequestParams) (t t' : ParamType.t) :
  is_Some (paramMap t st !! name) -> is_Some (paramMap t' st !! name) -> t <> t' ->
  2 <= length (locations name st).
Proof.
  intros Ht Ht' Hne. unfold locations. rewrite !filter_cons, filter_nil.
  destruct t, t'; try done; simpl in Ht, Ht';
    repeat case_decide; simpl; try lia; done.
Qed.

Lemma bindParams_located (operation : Operation.t) (params : list ExplicitParamValue.t)
    (st : RequestParams) (p : ExplicitParamValue.t) (t : ParamType.t) :
  bindParams operation (ParamsArray params) = Returns st ->
  p ∈ params -> explicitType operation p = ParamType.value t ->
  is_Some (paramMap t st !! ExplicitParamValue.name p).
Proof.
  simpl. intros [= <-] Hp Ht. rewrite bindParams_array_lookup.
  destruct (last (triplesAt operation t (ExplicitParamValue.name p) params)) eqn:Hlast;
    [by eexists|].
  apply last_None in Hlast.
  assert (Hin : p ∈ triplesAt operation t (ExplicitParamValue.name p) params)
    by by apply list_elem_of_filter.
  rewrite Hlast in Hin. by apply elem_of_nil in Hin.
Qed.

(** C9, as amended: binding places a name in at most one of the four maps
    unless the first argument is a sequence with two triples of that name
    that go to different locations, and only then; this takes a triple
    that states its location: a mapping, a scalar, null, undefined and a
    sequence whose triples of the name state no location place it in one
    map at most. In the request the name is then in at most one of query,
    headers and cookies, in at most one of the four maps when it is not a
    placeholder of the path pattern, and in pathParams when it is. *)
Theorem one_location_per_name (api : OpenAPIClientAxios) (operation : Operation.t)
    (args : OperationMethodArguments.t) (request : RequestConfig.t) (name : string) :
  oneLocation operation name (OperationMethodArguments.params args) ->
  getRequestConfigForOperation api (Op operation) args = Returns request ->
  (exists st,
     bindParams operation (OperationMethodArguments.params args) = Returns st
     /\ length (locations name st) <= 1
     /\ length (otherLocations name (requestParams request)) <= 1
     /\ (name ∉ names (bath (Operation.path operation)) ->
           length (locations name (requestParams request)) <= 1)
     /\ (name ∈ names (bath (Operation.path operation)) ->
           ParamType.Path ∈ locations name (requestParams request)))
  /\ (forall params,
        (forall p, p ∈ params -> ExplicitParamValue.name p = name ->
           ExplicitParamValue.in_ p = None \/ ExplicitParamValue.in_ p = Some "") ->
        oneLocation operation name (ParamsArray params))
  /\ (forall params, oneLocation operation name (ParamsObject params))
  /\ (forall p, oneLocation operation name (SingleParam p))
  /\ (forall paramsArg bound,
        bindParams operation paramsArg = Returns bound ->
        length (locations name bound) <= 1 ->
        oneLocation operation name paramsArg).
Proof.
  intros Hone Hreq. split; [|split; [|split; [done|split; [done|]]]].
  - destruct (getRequestConfigForOperation_maps _ _ _ _ Hreq)
      as (st & Hbind & Hpp & Hq & Hh & Hc & _).
    exists st. split; [done|].
    assert (Hother : forall t, t <> ParamType.Path ->
              paramMap t (requestParams request) !! name = paramMap t st !! name).
    { intros [] Ht; simpl; congruence. }
    split; [|split; [|split]].
    + apply locations_at_most_one. intros t t'.
      by apply (bindParams_agreeing_location operation (OperationMethodArguments.params args)).
    + unfold otherLocations. rewrite !filter_cons, filter_nil.
      rewrite !Hother by done.
      apply (otherLocations_at_most_one name st). intros t t'.
      by apply (bindParams_agreeing_location operation (OperationMethodArguments.params args)).
    + intros Hname. apply locations_at_most_one. intros t t'.
      assert (Hsame : forall t, paramMap t (requestParams request) !! name = paramMap t st !! name).
      { intros []; simpl; rewrite ?Hpp, ?Hq, ?Hh, ?Hc; [|done..].
        by apply lookup_setPathParams_other. }
      rewrite !Hsame.
      by apply (bindParams_agreeing_location operation (OperationMethodArguments.params args)).
    + intros Hname. unfold locations. apply list_elem_of_filter.
      split; [|apply list_elem_of_here].
      simpl. rewrite Hpp, lookup_setPathParams_name by done. by eexists.
  - intros params Hnone p q t t' Hp Hq Hpname Hqname. unfold explicitType.
    destruct (Hnone p Hp Hpname) as [-> | ->], (Hnone q Hq Hqname) as [-> | ->];
      simpl; rewrite Hpname, Hqname; intros Hpt Hqt;
      apply ParamType_value_inj; congruence.
  - intros [params| |] bound Hbound Hlength; [|done..].
    intros p q t t' Hp Hq Hpname Hqname Hpt Hqt.
    destruct (decide (t = t')) as [|Hne]; [done|]. exfalso.
    pose proof (bindParams_located operation params bound p t Hbound Hp Hpt) as Ht.
    pose proof (bindParams_located operation params bound q t' Hbound Hq Hqt) as Ht'.
    rewrite Hpname in Ht. rewrite Hqname in Ht'.
    pose proof (locations_two name bound t t' Ht Ht' Hne). lia.
Qed.

(** X6: a sequence of explicit triples never fails to bind; every triple
    goes to the location it states, when it states a non-empty one, and to
    the location declared for its name (the query when undeclared)
    otherwise; the value that a location holds under a name is the value
    of the last triple for that name and location. *)
Theorem explicit_triples_last_wins (operation : Operation.t)
    (params : list ExplicitParamValue.t) :
  (forall param type, ExplicitParamValue.in_ param = Some type -> type <> "" ->
     explicitType operation param = type)
  /\ (forall param,
        ExplicitParamValue.in_ param = None \/ ExplicitParamValue.in_ param = Some "" ->
        explicitType operation param =
        ParamType.value (getParamType operation (ExplicitParamValue.name param)))
  /\ exists st,
       bindParams operation (ParamsArray params) = Returns st
       /\ forall t name,
            paramMap t st !! name =
            ExplicitParamValue.value <$> last (triplesAt operation t name params).
Proof.
  split; [|split].
  - intros param type Hin Hne. unfold explicitType. rewrite Hin.
    destruct type; [done|reflexivity].
  - intros param [Hin|Hin]; unfold explicitType; by rewrite Hin.
  - eexists. split; [reflexivity|]. intros t name.
    rewrite bindParams_array_lookup, paramMap_noParams, lookup_empty.
    by destruct (last _).
Qed.

Lemma getRequestConfigForOperation_ext (api : OpenAPIClientAxios) (operation : Operation.t)
    (args args' : OperationMethodArguments.t) :
  bindParams operation (OperationMethodArguments.params args)
    = bindParams operation (OperationMethodArguments.params args') ->
  OperationMethodArguments.data args = OperationMethodArguments.data args' ->
  getRequestConfigForOperation api (Op operation) args
    = getRequestConfigForOperation api (Op operation) args'.
Proof.
  intros Hbind Hdata. unfold getRequestConfigForOperation. simpl. by rewrite Hbind, Hdata.
Qed.

(** X7: a triple that states a location other than path, query, header
    and cookie is dropped without an error: the request is the one built
    without the triple. *)
Theorem triple_with_unknown_location_is_dropped (api : OpenAPIClientAxios)
    (operation : Operation.t) (before after : list ExplicitParamValue.t)
    (param : ExplicitParamValue.t) (type : string) (data : value) (config : option obj) :
  ExplicitParamValue.in_ param = Some type ->
  type <> "" ->
  (forall t, type <> ParamType.value t) ->
  bindParams operation (ParamsArray (before ++ param :: after))
    = bindParams operation (ParamsArray (before ++ after))
  /\ getRequestConfigForOperation api (Op operation)
       {| OperationMethodArguments.params := ParamsArray (before ++ param :: after);
          OperationMethodArguments.data := data;
          OperationMethodArguments.config := config |}
     = getRequestConfigForOperation api (Op operation)
       {| OperationMethodArguments.params := ParamsArray (before ++ after);
          OperationMethodArguments.data := data;
          OperationMethodArguments.config := config |}.
Proof.
  intros Hin Hne Hunknown.
  assert (Hbind : bindParams operation (ParamsArray (before ++ param :: after))
                  = bindParams operation (ParamsArray (before ++ after))).
  { unfold bindParams. rewrite !foldl_app. simpl.
    assert (explicitType operation param = type) as ->.
    { unfold explicitType. rewrite Hin. by destruct type. }
    unfold setRequestParam at 2.
    rewrite !(proj2 (String.eqb_neq _ _)) by apply Hunknown. done. }
  split; [done|]. by apply getRequestConfigForOperation_ext.
Qed.

(** *** Calls without parameters *)

(** X8: null, undefined, an empty mapping and an empty sequence bind
    nothing: the query, headers and cookies of the request are empty,
    pathParams holds the text "undefined" for every placeholder of the path
    pattern and nothing else, and the path is rendered from no values. *)
Theorem absent_parameters_bind_nothing (api : OpenAPIClientAxios) (operation : Operation.t)
    (args : OperationMethodArguments.t) (baseURL : option string) :
  OperationMethodArguments.params args ∈
    [SingleParam PUndefined; SingleParam PNull; ParamsObject ∅; ParamsArray []] ->
  getBaseURL api (Some (Op operation)) = Returns baseURL ->
  exists request,
    getRequestConfigForOperation api (Op operation) args = Returns request
    /\ RequestConfig.query request = ∅
    /\ RequestConfig.headers request = ∅
    /\ RequestConfig.cookies request = ∅
    /\ (forall name,
          RequestConfig.pathParams request !! name =
          if decide (name ∈ names (bath (Operation.path operation)))
          then Some (str "undefined") else None)
    /\ RequestConfig.path request = path (bath (Operation.path operation)) ∅.
Proof.
  intros Hparams Hbase.
  assert (Hbind : bindParams operation (OperationMethodArguments.params args) = Returns noParams).
  { repeat (apply elem_of_cons in Hparams as [->|Hparams]); try done.
    by apply elem_of_nil in Hparams. }
  destruct (getRequestConfigForOperation_returns api operation args noParams baseURL Hbind Hbase)
    as (request & Hreq & _ & Hpp & Hpath & Hq & _ & Hh & Hc & _).
  exists request. repeat split; try done.
  intros name. rewrite Hpp. simpl. case_decide.
  - by rewrite lookup_setPathParams_name.
  - by rewrite lookup_setPathParams_other.
Qed.

(** *** When a request cannot be built *)

Lemma bindParams_throws (operation : Operation.t) (paramsArg : Parameters) (e : JsError) :
  bindParams operation paramsArg = Throws e <->
  exists p, paramsArg = SingleParam p /\ p <> PUndefined /\ p <> PNull
    /\ declared operation = []
    /\ e = Error ("No parameters found for operation " +:+
                  opt_to_string (Operation.operationId operation)).
Proof.
  split.
  - destruct paramsArg as [params|params|p]; [done..|].
    unfold bindParams, getFirstOperationParam.
    destruct (declared operation) as [|first rest] eqn:Hdecl.
    + simpl. destruct p; try done; intros [= <-]; eexists; by repeat split.
    + destruct (find _ (first :: rest)); simpl; by destruct p.
  - intros (p & -> & Hu & Hn & Hdecl & ->).
    unfold bindParams, getFirstOperationParam. rewrite Hdecl. simpl. by destruct p.
Qed.

(** X9: base URL resolution throws, a TypeError, in three cases only, all
    with a description loaded: the operation is given by a non-empty
    identifier that the catalogue does not have; or no server of the
    operation applies and either the selector is a string and the
    description has no server list, or the selector is undefined. *)
Theorem getBaseURL_throws_only_TypeError (api : OpenAPIClientAxios)
    (operation : option OperationRef) (e : JsError) :
  getBaseURL api operation = Throws e <->
  e = TypeError
  /\ exists def, definition api = Some def
     /\ ((exists operationId, operation = Some (OpId operationId) /\ operationId <> ""
            /\ getOperation api operationId = None)
         \/ (operationServer api operation = Returns None
             /\ ((exists d, defaultServer api = ServerDescription d
                    /\ Document.servers def = None)
                 \/ defaultServer api = ServerUndefined))).
Proof.
  unfold getBaseURL. split.
  - destruct (definition api) as [def|]; [|done].
    destruct (operationServer api operation) as [[s|]|e'] eqn:Hown; simpl; [done| |].
    + unfold targetServer.
      destruct (defaultServer api) as [n|d|s|] eqn:Hsel; [done| |done|].
      * destruct (Document.servers def) eqn:Hservers; [done|].
        intros [= <-]. split; [done|]. exists def. split; [done|]. right.
        split; [done|]. left. by exists d.
      * intros [= <-]. split; [done|]. exists def. split; [done|]. right.
        split; [done|]. by right.
    + intros [= <-]. unfold operationServer in Hown.
      destruct operation as [[operationId|o]|]; [| |done].
      * destruct operationId as [|c s]; [done|]. simpl in Hown.
        destruct (getOperation api (String c s)) eqn:Ho; [done|].
        injection Hown as <-. split; [done|]. exists def. split; [done|]. left.
        by exists (String c s).
      * done.
  - intros (-> & def & -> &
             [(operationId & -> & Hne & Hnone)|(Hown & [(d & Hsel & Hservers)|Hsel])]).
    + unfold operationServer. destruct operationId as [|c s]; [done|]. simpl.
      by rewrite Hnone.
    + rewrite Hown. simpl. unfold targetServer. by rewrite Hsel, Hservers.
    + rewrite Hown. simpl. unfold targetServer. by rewrite Hsel.
Qed.

(** X10: for an operation given as an object, request construction throws
    in two cases only: a bare scalar for an operation without parameters,
    with the error that names the operation, and otherwise a failure of
    base URL resolution, with its error; in every other case a request is
    returned. *)
Theorem request_construction_fails_only (api : OpenAPIClientAxios) (operation : Operation.t)
    (args : OperationMethodArguments.t) :
  (forall e,
     getRequestConfigForOperation api (Op operation) args = Throws e <->
     (exists p, OperationMethodArguments.params args = SingleParam p
        /\ p <> PUndefined /\ p <> PNull
        /\ declared operation = []
        /\ e = Error ("No parameters found for operation " +:+
                      opt_to_string (Operation.operationId operation)))
     \/ ((exists st, bindParams operation (OperationMethodArguments.params args) = Returns st)
         /\ getBaseURL api (Some (Op operation)) = Throws e))
  /\ ((exists request, getRequestConfigForOperation api (Op operation) args = Returns request) <->
      (exists st, bindParams operation (OperationMethodArguments.params args) = Returns st)
      /\ exists baseURL, getBaseURL api (Some (Op operation)) = Returns baseURL).
Proof.
  split.
  - intros e. rewrite <- bindParams_throws.
    unfold getRequestConfigForOperation. simpl.
    destruct (bindParams operation (OperationMethodArguments.params args)) as [st|e'] eqn:Hbind;
      simpl.
    + destruct (getBaseURL api (Some (Op operation))) as [baseURL|e'']; simpl.
      * split; [intros [=]|]. intros [?|[_ ?]]; discriminate.
      * split; [intros [= <-]; right; split; [by exists st|done]|].
        intros [?|[_ [= ->]]]; [discriminate|done].
    + split; [intros [= <-]; by left|]. intros [[= ->]|[[st ?] _]]; [done|discriminate].
  - split.
    + intros [request Hreq].
      destruct (getRequestConfigForOperation_inv _ _ _ _ Hreq) as (st & baseURL & Hbind & Hbase).
      split; [by exists st|by exists baseURL].
    + intros [[st Hbind] [baseURL Hbase]].
      destruct (getRequestConfigForOperation_returns _ _ _ _ _ Hbind Hbase) as (request & Hreq & _).
      by exists request.
Qed.

(** *** A single scalar in the path *)

(** X11: a bare scalar for an operation whose first parameter (the first
    required one, if any) is a path parameter is printed into the path: the
    path is the pattern rendered with that value alone, pathParams holds
    its string form when the name is a placeholder, and the query, headers
    and cookies are empty. A number is a safe integer, whose string form is
    its decimal digits. *)
Theorem scalar_is_rendered_into_the_path (api : OpenAPIClientAxios) (operation : Operation.t)
    (args : OperationMethodArguments.t) (p : prim) (firstParam : ParameterObject.t)
    (baseURL : option string) :
  OperationMethodArguments.params args = SingleParam p ->
  p <> PUndefined -> p <> PNull ->
  printable (Prim p) = true ->
  getFirstOperationParam operation = Some firstParam ->
  ParameterObject.in_ firstParam = ParamType.Path ->
  getBaseURL api (Some (Op operation)) = Returns baseURL ->
  exists request,
    getRequestConfigForOperation api (Op operation) args = Returns request
    /\ RequestConfig.path request =
         path (bath (Operation.path operation)) {[ ParameterObject.name firstParam := Prim p ]}
    /\ (ParameterObject.name firstParam ∈ names (bath (Operation.path operation)) ->
          RequestConfig.pathParams request !! ParameterObject.name firstParam
          = Some (str (prim_to_string p)))
    /\ RequestConfig.query request = ∅
    /\ RequestConfig.headers request = ∅
    /\ RequestConfig.cookies request = ∅.
Proof.
  intros Hargs Hu Hn Hprintable Hfirst Hin Hbase.
  destruct (bindParams_single operation p firstParam Hu Hn Hfirst) as (st & Hbind & Hmap & Hother).
  rewrite <- Hargs in Hbind. rewrite Hin in Hmap, Hother. simpl in Hmap.
  destruct (getRequestConfigForOperation_returns api operation args st baseURL Hbind Hbase)
    as (request & Hreq & _ & Hpp & Hpath & Hq & _ & Hh & Hc & _).
  exists request. split; [done|]. split; [by rewrite Hpath, Hmap|].
  split.
  - intros Hname. rewrite Hpp, lookup_setPathParams_name, Hmap by done.
    by rewrite lookup_singleton_eq.
  - rewrite Hq, Hh, Hc.
    split; [by apply (Hother ParamType.Query)|].
    split; [by apply (Hother ParamType.Header)|by apply (Hother ParamType.Cookie)].
Qed.

(** *** The transport configuration *)

Lemma merge_empty (object : obj) : merge object ∅ = Some object.
Proof. unfold merge. by rewrite map_fold_empty. Qed.

(** X12: without an override, and with an empty one, the transport
    configuration has the members method, url, data, params and headers,
    and baseURL exactly when the operation has a server of its own; url is
    the path of the request, without the base URL and the query string; no
    other member exists, so the cookies of the request are not passed on. *)
Theorem transport_config_without_override (api : OpenAPIClientAxios) (operation : Operation.t)
    (args : OperationMethodArguments.t) (request : RequestConfig.t) :
  OperationMethodArguments.config args = None \/ OperationMethodArguments.config args = Some ∅ ->
  getRequestConfigForOperation api (Op operation) args = Returns request ->
  exists config,
    getAxiosConfigForOperation api (Op operation) args = Returns (Some config)
    /\ config !! "method" = Some (str (HttpMethod.value (Operation.method operation)))
    /\ config !! "url" = Some (str (RequestConfig.path request))
    /\ config !! "data" = Some (OperationMethodArguments.data args)
    /\ config !! "params" = Some (VObj (RequestConfig.query request))
    /\ config !! "headers" = Some (VObj (RequestConfig.headers request))
    /\ config !! "baseURL" =
         (fun s => str (Server.url s)) <$> firstServer (Operation.servers operation)
    /\ (forall key, key ∉ ["method"; "url"; "data"; "params"; "headers"; "baseURL"] ->
          config !! key = None).
Proof.
  intros Hconfig Hreq.
  destruct (getRequestConfigForOperation_maps _ _ _ _ Hreq) as (st & _ & _ & _ & _ & _ & Hpay).
  destruct (getRequestConfigForOperation_inv _ _ _ _ Hreq) as (st' & baseURL & Hbind & Hbase).
  destruct (getRequestConfigForOperation_returns _ _ _ _ _ Hbind Hbase)
    as (request' & Hreq' & Hmethod & _).
  assert (request' = request) as -> by congruence.
  exists (axiosConfig operation request). split.
  - unfold getAxiosConfigForOperation. simpl. rewrite Hreq. simpl.
    destruct Hconfig as [->| ->]; [done|]. by rewrite merge_empty.
  - unfold axiosConfig. rewrite Hmethod, Hpay.
    destruct (firstServer (Operation.servers operation)) as [s|]; simpl.
    + repeat split; try done.
      intros key Hkey. rewrite !not_elem_of_cons in Hkey.
      destruct Hkey as (? & ? & ? & ? & ? & ? & _).
      by rewrite !lookup_insert_ne, lookup_empty.
    + repeat split; try done.
      intros key Hkey. rewrite !not_elem_of_cons in Hkey.
      destruct Hkey as (? & ? & ? & ? & ? & ? & _).
      by rewrite !lookup_insert_ne, lookup_empty.
Qed.

(** *** The client instance *)

Lemma find_head_filter {A : Type} (P : A -> Prop) `{forall x, Decision (P x)} (l : list A) :
  find (fun x => bool_decide (P x)) l = head (filter P l).
Proof.
  induction l as [|x l IH]; [done|]. simpl. rewrite filter_cons.
  case_bool_decide; by case_decide.
Qed.

Lemma operationMethods_lookup (operations : list Operation.t)
    (instance : gmap string UnknownOperationMethod) (operationId : string) :
  operationId <> "" ->
  foldl (fun instance operation =>
           match Operation.operationId operation with
           | Some operationId =>
               if truthy (str operationId)
               then <[operationId := createOperationMethod (Some operation)]> instance
               else instance
           | None => instance
           end) instance operations !! operationId =
  match last (identified operationId operations) with
  | Some o => Some (createOperationMethod (Some o))
  | None => instance !! operationId
  end.
Proof.
  intros Hne. revert instance.
  induction operations as [|o operations IH]; intros instance; [done|].
  simpl. rewrite IH. unfold identified. rewrite filter_cons.
  case_decide as Hid.
  - rewrite last_cons_default. rewrite Hid.
    destruct (String.eqb_spec operationId "") as [?|_]; [done|].
    destruct (last _); [done|]. simpl. by rewrite lookup_insert_eq.
  - destruct (last _); [done|].
    destruct (Operation.operationId o) as [id|]; [|done].
    destruct (String.eqb_spec id "") as [?|_]; [done|]. simpl.
    rewrite lookup_insert_ne; [done|]. congruence.
Qed.

Lemma operationMethods_empty_identifier (operations : list Operation.t)
    (instance : gmap string UnknownOperationMethod) :
  foldl (fun instance operation =>
           match Operation.operationId operation with
           | Some operationId =>
               if truthy (str operationId)
               then <[operationId := createOperationMethod (Some operation)]> instance
               else instance
           | None => instance
           end) instance operations !! "" = instance !! "".
Proof.
  revert instance. induction operations as [|o operations IH]; intros instance; [done|].
  simpl. rewrite IH.
  destruct (Operation.operationId o) as [[|c s]|]; [done| |done].
  simpl. by rewrite lookup_insert_ne.
Qed.

Lemma getBaseURL_without_operation (api : OpenAPIClientAxios) (e : JsError) :
  getBaseURL api None = Throws e <->
  e = TypeError
  /\ exists def, definition api = Some def
       /\ ((exists d, defaultServer api = ServerDescription d /\ Document.servers def = None)
           \/ defaultServer api = ServerUndefined).
Proof.
  unfold getBaseURL, operationServer, targetServer. split.
  - destruct (definition api) as [def|]; [|done]. simpl.
    destruct (defaultServer api) as [n|d|s|]; [done| |done|].
    + destruct (Document.servers def) eqn:Hservers; [done|].
      intros [= <-]. split; [done|]. exists def. split; [done|]. left. by exists d.
    + intros [= <-]. split; [done|]. exists def. split; [done|]. by right.
  - intros (-> & def & -> & [(d & -> & ->)| ->]); done.
Qed.

(** X13: [createAxiosInstance] throws, a TypeError, in three cases only:
    no description is loaded; or the default-server selector is a string
    and the description has no server list; or the selector is undefined.
    Otherwise it returns the instance. *)
Theorem createAxiosInstance_fails_only (api : OpenAPIClientAxios) (axiosConfigDefaults : obj) :
  (forall e,
     createAxiosInstance api axiosConfigDefaults = Throws e <->
     e = TypeError
     /\ (definition api = None
         \/ exists def, definition api = Some def
              /\ ((exists d, defaultServer api = ServerDescription d
                     /\ Document.servers def = None)
                  \/ defaultServer api = ServerUndefined)))
  /\ ((exists instance, createAxiosInstance api axiosConfigDefaults = Returns instance) <->
      exists def, definition api = Some def
        /\ defaultServer api <> ServerUndefined
        /\ forall d, defaultServer api = ServerDescription d -> Document.servers def <> None).
Proof.
  unfold createAxiosInstance.
  destruct (getBaseURL api None) as [baseURL|e'] eqn:Hbase; simpl.
  - assert (Hnot : forall def, definition api = Some def ->
              ~ ((exists d, defaultServer api = ServerDescription d
                    /\ Document.servers def = None)
                 \/ defaultServer api = ServerUndefined)).
    { intros def Hdef Hfails.
      assert (getBaseURL api None = Throws TypeError) as Hthrows.
      { apply getBaseURL_without_operation. split; [done|]. by exists def. }
      congruence. }
    destruct (definition api) as [def|] eqn:Hdef.
    + split.
      * intros e. split; [done|]. intros [_ [?|(def' & [= <-] & Hfails)]]; [done|].
        by destruct (Hnot def).
      * split; [|by eexists]. intros _. exists def. split; [done|]. split.
        -- intros Hsel. apply (Hnot def eq_refl). by right.
        -- intros d Hsel Hservers. apply (Hnot def eq_refl). left. by exists d.
    + split.
      * intros e. split; [intros [= <-]; split; [done|by left]|]. by intros [-> _].
      * split; [by intros [? ?]|]. by intros (def & ? & _).
  - apply getBaseURL_without_operation in Hbase as (-> & def & Hdef & Hfails).
    split.
    + intros e. split.
      * intros [= <-]. split; [done|]. right. by exists def.
      * by intros [-> _].
    + split; [by intros [? ?]|].
      intros (def' & Hdef' & Hsel & Hnot). exfalso.
      assert (def' = def) as -> by congruence.
      destruct Hfails as [(d & Hd & Hservers)|Hundefined]; [by apply (Hnot d)|done].
Qed.

(** X14: the instance is given the resolved base URL exactly when that
    URL is not empty and [axiosConfigDefaults] has no truthy [baseURL]: a
    configured base URL is never replaced. *)
Theorem createAxiosInstance_keeps_configured_baseURL (api : OpenAPIClientAxios)
    (axiosConfigDefaults : obj) (instance : OpenAPIClient.t) :
  createAxiosInstance api axiosConfigDefaults = Returns instance ->
  (forall url,
     OpenAPIClient.baseURL instance = Some url <->
     getBaseURL api None = Returns (Some url)
     /\ url <> ""
     /\ truthy (default undefined (axiosConfigDefaults !! "baseURL")) = false)
  /\ (truthy (default undefined (axiosConfigDefaults !! "baseURL")) = true ->
      OpenAPIClient.baseURL instance = None).
Proof.
  unfold createAxiosInstance.
  destruct (getBaseURL api None) as [baseURL|] eqn:Hbase; [|done]. simpl.
  destruct (definition api) as [def|]; [|done]. intros [= <-]. simpl.
  destruct (truthy (default undefined (axiosConfigDefaults !! "baseURL"))) eqn:Hconfigured.
  - split; [|by destruct baseURL as [url|]; rewrite ?andb_false_r].
    intros url. split; [|by intros (_ & _ & ?)].
    destruct baseURL as [url'|]; [|done]. by rewrite andb_false_r.
  - split; [|done]. intros url. destruct baseURL as [url'|].
    + rewrite andb_true_r. simpl. destruct (String.eqb_spec url' "") as [->|Hne]; simpl.
      * split; [done|]. by intros ([= <-] & ? & _).
      * split; [intros [= <-]; by repeat split|]. by intros ([= <-] & _).
    + split; [done|]. by intros ([=] & _).
Qed.

(** X15: the instance has a method under every operation identifier of
    the catalogue other than the empty one, [paths] and [api], and under no
    other name; the method is bound to the last operation of the catalogue
    that has the identifier, where [getOperation] gives the first; called,
    it builds the transport configuration of that operation. *)
Theorem operation_methods_are_bound_to_the_last (api : OpenAPIClientAxios)
    (axiosConfigDefaults : obj) (instance : OpenAPIClient.t) :
  createAxiosInstance api axiosConfigDefaults = Returns instance ->
  (forall operationId, operationId ∈ [""; "paths"; "api"] ->
     OpenAPIClient.operationMethods instance !! operationId = None)
  /\ (forall operationId, operationId ∉ [""; "paths"; "api"] ->
        OpenAPIClient.operationMethods instance !! operationId =
        (fun o => createOperationMethod (Some o)) <$>
        last (identified operationId (getOperations api)))
  /\ (forall operationId,
        getOperation api operationId = head (identified operationId (getOperations api)))
  /\ (forall o this args,
        createOperationMethod (Some o) this args = getAxiosConfigForOperation this (Op o) args).
Proof.
  unfold createAxiosInstance.
  destruct (getBaseURL api None) as [baseURL|]; [|done]. simpl.
  destruct (definition api) as [def|]; [|done]. intros [= <-]. simpl.
  split; [|split; [|split]].
  - intros operationId Hin. rewrite !elem_of_cons in Hin.
    destruct Hin as [->|[->|[->|Hin]]]; [| | |by apply elem_of_nil in Hin].
    + rewrite !lookup_delete_ne by done.
      unfold operationMethods. by rewrite operationMethods_empty_identifier.
    + rewrite lookup_delete_ne by done. by rewrite lookup_delete_eq.
    + by rewrite lookup_delete_eq.
  - intros operationId Hnot. rewrite !not_elem_of_cons in Hnot.
    destruct Hnot as (Hne & Hpaths & Hapi & _).
    rewrite !lookup_delete_ne by done. unfold operationMethods.
    rewrite operationMethods_lookup by done. by destruct (last _).
  - intros operationId. unfold getOperation, identified. apply find_head_filter.
  - done.
Qed.

Lemma HttpMethod_value_inj (m m' : HttpMethod.t) :
  HttpMethod.value m = HttpMethod.value m' -> m = m'.
Proof. by destruct m, m'. Qed.

Lemma pathMethods_lookup (operations : list Operation.t) (path : string)
    (pathObject : PathItemObject.t) (methods : gmap string UnknownOperationMethod)
    (method : HttpMethod.t) :
  pathMethods operations path pathObject methods !! HttpMethod.value method =
  match PathItemObject.operation pathObject method with
  | Some _ =>
      Some (createOperationMethod
              (find (fun o => bool_decide (Operation.path o = path /\ Operation.method o = method))
                    operations))
  | None => methods !! HttpMethod.value method
  end.
Proof.
  unfold pathMethods. pose proof (HttpMethod_values_all method) as Hin. revert methods Hin.
  generalize HttpMethod.values. intros values.
  assert (Hstep : forall values (methods : gmap string UnknownOperationMethod),
    method ∉ values ->
    foldl (fun methods method =>
             match PathItemObject.operation pathObject method with
             | Some _ =>
                 <[HttpMethod.value method :=
                     createOperationMethod
                       (find (fun o => bool_decide (Operation.path o = path /\ Operation.method o = method))
                             operations)]> methods
             | None => methods
             end) methods values !! HttpMethod.value method
    = methods !! HttpMethod.value method).
  { clear values. intros values.
    induction values as [|m values IH]; intros methods Hnot; [done|].
    apply not_elem_of_cons in Hnot as [Hne Hnot]. simpl. rewrite IH by done.
    destruct (PathItemObject.operation pathObject m); [|done].
    rewrite lookup_insert_ne; [done|]. intros Heq. by apply HttpMethod_value_inj in Heq. }
  induction values as [|m values IH]; intros methods Hin; [by apply elem_of_nil in Hin|].
  simpl. destruct (decide (method ∈ values)) as [Hrest|Hrest].
  - rewrite IH by done.
    destruct (PathItemObject.operation pathObject method) eqn:Hop; [done|].
    destruct (PathItemObject.operation pathObject m) eqn:Hm; [|done].
    rewrite lookup_insert_ne; [done|]. intros Heq. apply HttpMethod_value_inj in Heq. congruence.
  - apply elem_of_cons in Hin as [->|?]; [|done].
    rewrite Hstep by done.
    destruct (PathItemObject.operation pathObject m); [|done]. by rewrite lookup_insert_eq.
Qed.

Lemma pathsDictionary_lookup (operations : list Operation.t)
    (paths : list (string * PathItemObject.t))
    (dictionary : gmap string (gmap string UnknownOperationMethod)) (path : string) :
  NoDup paths.*1 ->
  foldl (fun dictionary '(path, pathObject) =>
           <[path := pathMethods operations path pathObject (default ∅ (dictionary !! path))]>
             dictionary) dictionary paths !! path =
  match list_find (fun entry => entry.1 = path) paths with
  | Some (_, (_, pathObject)) =>
      Some (pathMethods operations path pathObject (default ∅ (dictionary !! path)))
  | None => dictionary !! path
  end.
Proof.
  revert dictionary. induction paths as [|[p pathObject] paths IH]; intros dictionary Hnodup;
    [done|].
  apply NoDup_cons in Hnodup as [Hfresh Hnodup]. simpl. rewrite IH by done.
  case_decide as Hp; simpl in Hp.
  - subst p.
    destruct (list_find _ paths) as [[i [p' pathObject']]|] eqn:Hfind.
    + exfalso. apply list_find_Some in Hfind as (Hi & Hp' & _). simpl in Hp'. subst p'.
      apply Hfresh. apply list_elem_of_fmap. exists (path, pathObject').
      split; [done|]. by eapply list_elem_of_lookup_2.
    + simpl. by rewrite lookup_insert_eq.
  - destruct (list_find _ paths) as [[i [p' pathObject']]|] eqn:Hfind; simpl.
    + by rewrite lookup_insert_ne.
    + by rewrite lookup_insert_ne.
Qed.

Lemma pathsDictionary_catalogued (api : OpenAPIClientAxios) (def : Document.t)
    (path : string) (pathObject : PathItemObject.t) :
  definition api = Some def ->
  NoDup (Document.paths def).*1 ->
  (path, pathObject) ∈ Document.paths def ->
  exists methods,
    pathsDictionary (getOperations api) (Document.paths def) !! path = Some methods
    /\ forall method,
         methods !! HttpMethod.value method =
         (fun operation =>
            createOperationMethod (Some (catalogued path pathObject method operation)))
           <$> PathItemObject.operation pathObject method.
Proof.
  intros Hdef Hnodup Hin. unfold pathsDictionary. rewrite pathsDictionary_lookup by done.
  destruct (list_find _ (Document.paths def)) as [[i [p pathObject']]|] eqn:Hfind.
  - apply list_find_Some in Hfind as (Hi & Hp & _). simpl in Hp. subst p.
    assert (pathObject' = pathObject) as ->.
    { apply list_elem_of_lookup in Hin as [j Hj].
      assert (i = j) as ->; [|congruence].
      eapply NoDup_lookup; [exact Hnodup| |];
        rewrite list_lookup_fmap; [by rewrite Hi|by rewrite Hj]. }
    eexists. split; [done|]. intros method. rewrite pathMethods_lookup, lookup_empty.
    destruct (PathItemObject.operation pathObject method) as [operation|] eqn:Hop; [|done].
    simpl. do 2 f_equal.
    by apply (find_by_path_and_method_aux api def).
  - exfalso. eapply list_find_None in Hfind. rewrite Forall_forall in Hfind.
    by apply (Hfind _ Hin).
Qed.

(** X16: when the paths of the description are distinct, the paths
    dictionary of the instance has an entry for every path of the
    description and for no other; under a path, every HTTP method that the
    path item holds an operation for has a method bound to the catalogue
    entry of that operation, and the other HTTP methods have none. *)
Theorem paths_dictionary_is_bound_to_the_catalogue (api : OpenAPIClientAxios)
    (def : Document.t) (axiosConfigDefaults : obj) (instance : OpenAPIClient.t) :
  definition api = Some def ->
  NoDup (Document.paths def).*1 ->
  createAxiosInstance api axiosConfigDefaults = Returns instance ->
  (forall path, is_Some (OpenAPIClient.paths instance !! path) <-> path ∈ (Document.paths def).*1)
  /\ (forall path pathObject,
        (path, pathObject) ∈ Document.paths def ->
        exists methods,
          OpenAPIClient.paths instance !! path = Some methods
          /\ forall method,
               methods !! HttpMethod.value method =
               (fun operation =>
                  createOperationMethod (Some (catalogued path pathObject method operation)))
                 <$> PathItemObject.operation pathObject method).
Proof.
  intros Hdef Hnodup. unfold createAxiosInstance.
  destruct (getBaseURL api None) as [baseURL|]; [|done]. simpl.
  rewrite Hdef. intros [= <-]. simpl. unfold pathsDictionary.
  split.
  - intros path. rewrite pathsDictionary_lookup by done. rewrite lookup_empty.
    destruct (list_find _ (Document.paths def)) as [[i [p pathObject]]|] eqn:Hfind.
    + apply list_find_Some in Hfind as (Hi & Hp & _). simpl in Hp. subst p.
      split; [|by eexists]. intros _. apply list_elem_of_fmap. exists (path, pathObject).
      split; [done|]. by eapply list_elem_of_lookup_2.
    + split; [by intros [? ?]|].
      intros ([p pathObject] & -> & Hin)%list_elem_of_fmap. exfalso.
      eapply list_find_None in Hfind. rewrite Forall_forall in Hfind.
      by apply (Hfind _ Hin).
  - intros path pathObject Hin. by apply pathsDictionary_catalogued.
Qed.

(** X17: [withServer] replaces the selector and nothing else: the
    catalogue stays, the last call wins, an operation with a server of its
    own resolves as before, and any other operation then resolves by the
    new selector alone; an origin object with a non-empty URL gives that
    URL as it is, whatever the variables are. *)
Theorem withServer_governs_later_requests (api : OpenAPIClientAxios) (server : DefaultServer)
    (variables : obj) :
  getOperations (withServer server variables api) = getOperations api
  /\ (forall server' variables',
        withServer server' variables' (withServer server variables api)
        = withServer server' variables' api)
  /\ (forall o s, firstServer (Operation.servers o) = Some s ->
        getBaseURL (withServer server variables api) (Some (Op o)) = getBaseURL api (Some (Op o)))
  /\ (forall o def, definition api = Some def -> firstServer (Operation.servers o) = None ->
        getBaseURL (withServer server variables api) (Some (Op o))
        = getBaseURL {| definition := Some def; defaultServer := server |} None)
  /\ (forall o def s, definition api = Some def -> firstServer (Operation.servers o) = None ->
        server = ServerObject s -> Server.url s <> "" ->
        getBaseURL (withServer server variables api) (Some (Op o)) = Returns (Some (Server.url s))).
Proof.
  split; [done|]. split; [done|]. split; [|split].
  - intros o s Hs. unfold getBaseURL, operationServer. simpl. rewrite Hs.
    by destruct (definition api).
  - intros o def Hdef Hnone. unfold getBaseURL, operationServer. simpl.
    by rewrite Hdef, Hnone.
  - intros o def s Hdef Hnone -> Hurl. unfold getBaseURL, operationServer, targetServer. simpl.
    rewrite Hdef, Hnone. simpl. by destruct (String.eqb_spec (Server.url s) "").
Qed.

Lemma last_of_equals {A : Type} (l : list A) (x : A) :
  x ∈ l -> (forall y, y ∈ l -> y = x) -> last l = Some x /\ head l = Some x.
Proof.
  intros Hin Hall. split.
  - destruct (last l) as [y|] eqn:Hlast.
    + f_equal. by apply Hall, last_Some_elem_of.
    + apply last_None in Hlast. subst l. by apply elem_of_nil in Hin.
  - destruct (head l) as [y|] eqn:Hhead.
    + f_equal. by apply Hall, head_Some_elem_of.
    + apply head_None in Hhead. subst l. by apply elem_of_nil in Hin.
Qed.

(** X18: when the paths of the description are distinct and one
    operation only has the identifier, the method under the identifier and
    the method of the paths dictionary under the path and the HTTP method
    of that operation are the same, and [getOperation] gives that
    operation. *)
Theorem both_handles_reach_the_same_operation (api : OpenAPIClientAxios) (def : Document.t)
    (axiosConfigDefaults : obj) (instance : OpenAPIClient.t) (path : string)
    (pathObject : PathItemObject.t) (method : HttpMethod.t) (operation : OperationObject.t)
    (operationId : string) :
  definition api = Some def ->
  NoDup (Document.paths def).*1 ->
  createAxiosInstance api axiosConfigDefaults = Returns instance ->
  (path, pathObject) ∈ Document.paths def ->
  PathItemObject.operation pathObject method = Some operation ->
  OperationObject.operationId operation = Some operationId ->
  operationId ∉ [""; "paths"; "api"] ->
  (forall o, o ∈ getOperations api -> Operation.operationId o = Some operationId ->
     o = catalogued path pathObject method operation) ->
  exists methods,
    OpenAPIClient.paths instance !! path = Some methods
    /\ methods !! HttpMethod.value method
       = Some (createOperationMethod (Some (catalogued path pathObject method operation)))
    /\ OpenAPIClient.operationMethods instance !! operationId
       = methods !! HttpMethod.value method
    /\ getOperation api operationId = Some (catalogued path pathObject method operation).
Proof.
  intros Hdef Hnodup Hcreate Hin Hop Hid Hname Hunique.
  assert (Hidentified :
    last (identified operationId (getOperations api))
      = Some (catalogued path pathObject method operation)
    /\ head (identified operationId (getOperations api))
      = Some (catalogued path pathObject method operation)).
  { apply last_of_equals.
    - apply list_elem_of_filter. split; [done|].
      apply getOperations_catalogued. by exists def, path, pathObject, method, operation.
    - intros o [Ho Hcat]%list_elem_of_filter. by apply Hunique. }
  destruct Hidentified as [Hlast Hhead].
  revert Hcreate. unfold createAxiosInstance.
  destruct (getBaseURL api None) as [baseURL|]; [|done]. simpl.
  rewrite Hdef. intros [= <-]. simpl.
  destruct (pathsDictionary_catalogued api def path pathObject Hdef Hnodup Hin)
    as (methods & Hmethods & Hbound).
  exists methods. split; [done|]. rewrite Hbound, Hop. simpl. split; [done|].
  rewrite !not_elem_of_cons in Hname. destruct Hname as (? & ? & ? & _).
  split.
  - rewrite !lookup_delete_ne by done. unfold operationMethods.
    rewrite operationMethods_lookup by done. by rewrite Hlast.
  - unfold getOperation. by rewrite (find_head_filter _ _).
Qed.

(** X19: for an operation given as an object, the transport configuration
    does not depend on the state of the client: in any two states in which
    the base URL resolves, before and after [withServer] say, the
    configuration is the same, while the url of the request follows the
    base URL of each state. *)
Theorem transport_config_ignores_the_selector (api api' : OpenAPIClientAxios)
    (operation : Operation.t) (args : OperationMethodArguments.t)
    (baseURL baseURL' : option string) :
  getBaseURL api (Some (Op operation)) = Returns baseURL ->
  getBaseURL api' (Some (Op operation)) = Returns baseURL' ->
  getAxiosConfigForOperation api (Op operation) args
    = getAxiosConfigForOperation api' (Op operation) args
  /\ forall request,
       getRequestConfigForOperation api (Op operation) args = Returns request ->
       exists request',
         getRequestConfigForOperation api' (Op operation) args = Returns request'
         /\ RequestConfig.path request' = RequestConfig.path request
         /\ RequestConfig.queryString request' = RequestConfig.queryString request
         /\ RequestConfig.url request =
              opt_to_string baseURL +:+ RequestConfig.path request +:+
              (if String.eqb (RequestConfig.queryString request) "" then ""
               else "?" +:+ RequestConfig.queryString request)
         /\ RequestConfig.url request' =
              opt_to_string baseURL' +:+ RequestConfig.path request +:+
              (if String.eqb (RequestConfig.queryString request) "" then ""
               else "?" +:+ RequestConfig.queryString request).
Proof.
  intros Hbase Hbase'. split.
  - unfold getAxiosConfigForOperation, getRequestConfigForOperation. simpl.
    destruct (bindParams operation (OperationMethodArguments.params args)) as [st|]; [|done].
    simpl. rewrite Hbase, Hbase'. reflexivity.
  - intros request Hreq.
    destruct (getRequestConfigForOperation_inv _ _ _ _ Hreq) as (st & b & Hbind & Hb).
    assert (b = baseURL) as -> by congruence.
    destruct (getRequestConfigForOperation_returns _ _ _ _ _ Hbind Hbase)
      as (r & Hr & _ & _ & Hpath & _ & Hqs & _ & _ & _ & Hurl).
    assert (r = request) as -> by congruence.
    destruct (getRequestConfigForOperation_returns _ _ _ _ _ Hbind Hbase')
      as (request' & Hreq' & _ & _ & Hpath' & _ & Hqs' & _ & _ & _ & Hurl').
    exists request'. split; [done|].
    assert (RequestConfig.path request' = RequestConfig.path request) as Hp by congruence.
    assert (RequestConfig.queryString request' = RequestConfig.queryString request) as Hq
      by congruence.
    split; [done|]. split; [done|]. split; [done|]. by rewrite <- Hp, <- Hq.
Qed.

End Client.

(** ** The properties on the example description

    Requests are built with [bath_template] for the path patterns and
    [query_stringify] for the query string. *)

Example getOperations_petstore : getOperations client = [getPet].
Proof. reflexivity. Qed.



(** The end-to-end scenario: [getPet({ id: 42 })]. *)
Example getPet_request :
  getRequestConfigForOperation bath_template query_stringify client (OpId "getPet")
    (call (ParamsObject {[ "id" := num 42 ]}))
  = Returns {| RequestConfig.method := HttpMethod.Get;
               RequestConfig.url := "https://api.example.com/pets/42";
               RequestConfig.path := "/pets/42";
               RequestConfig.pathParams := {[ "id" := str "42" ]};
               RequestConfig.query := ∅;
               RequestConfig.queryString := "";
               RequestConfig.headers := ∅;
               RequestConfig.cookies := ∅;
               RequestConfig.payload := undefined |}.
Proof. vm_compute. reflexivity. Qed.

Lemma scalar_binds_first_required_param_witness :
  bindsOnly idParam (num 42) (bindParams getPet (SingleParam (PNum 42)))
  /\ getRequestConfigForOperation bath_template query_stringify client (Op listPets)
       (call (SingleParam (PNum 42)))
     = Throws (Error "No parameters found for operation listPets").
Proof.
  split.
  - apply (proj1 (scalar_binds_first_required_param bath_template query_stringify
                    getPet (PNum 42) ltac:(discriminate) ltac:(discriminate))
             [limitParam] idParam [traceParam]).
    + reflexivity.
    + repeat constructor. simpl. discriminate.
    + reflexivity.
  - apply (proj2 (proj2 (scalar_binds_first_required_param bath_template query_stringify
                           listPets (PNum 42) ltac:(discriminate) ltac:(discriminate)))).
    + reflexivity.
    + reflexivity.
Defined.

(** [getPet({ id: 0 })]: the key [id] has a falsy value and is a
    placeholder of the path: the request holds it in pathParams. *)
Lemma falsy_placeholder_key_is_bound :
  exists request,
    getRequestConfigForOperation bath_template query_stringify client (Op getPet)
      (call (ParamsObject {[ "id" := num 0 ]})) = Returns request
    /\ truthy (num 0) = false
    /\ RequestConfig.pathParams request !! "id" = Some (str "undefined")
    /\ RequestConfig.url request = "https://api.example.com/pets/undefined".
Proof. eexists. split; [vm_compute; reflexivity|]. by vm_compute. Qed.

Lemma mapping_binds_truthy_keys_witness :
  exists request,
    getRequestConfigForOperation bath_template query_stringify client (Op getPet)
      (call (ParamsObject (<[ "limit" := num 10 ]> {[ "id" := num 0 ]}))) = Returns request
    /\ RequestConfig.query request =
         truthyAt getPet ParamType.Query (<[ "limit" := num 10 ]> {[ "id" := num 0 ]})
    /\ RequestConfig.pathParams request !! "id" = Some (str "undefined").
Proof.
  destruct (mapping_binds_truthy_keys bath_template query_stringify client getPet
              (call (ParamsObject (<[ "limit" := num 10 ]> {[ "id" := num 0 ]})))
              (<[ "limit" := num 10 ]> {[ "id" := num 0 ]})
              (Some "https://api.example.com") eq_refl eq_refl)
    as (request & Hreq & Hq & _ & _ & _ & _ & Hfalsy).
  exists request. split; [exact Hreq|]. split; [exact Hq|].
  destruct (Hfalsy "id" (num 0) eq_refl eq_refl) as (_ & _ & _ & Hid). exact Hid.
Defined.

(** C4: for a description without servers, and before a description is
    loaded, the base URL is absent; the request is built, and its url is
    the path after the text "undefined". *)
Theorem url_of_request_without_base_url :
  getBaseURL unloaded (Some (Op listPets)) = Returns None
  /\ getBaseURL serverless (Some (Op listPets)) = Returns None
  /\ getRequestConfigForOperation bath_template query_stringify serverless (Op listPets)
       (call (SingleParam PUndefined))
     = Returns {| RequestConfig.method := HttpMethod.Get;
                  RequestConfig.url := "undefined/pets";
                  RequestConfig.path := "/pets";
                  RequestConfig.pathParams := ∅;
                  RequestConfig.query := ∅;
                  RequestConfig.queryString := "";
                  RequestConfig.headers := ∅;
                  RequestConfig.cookies := ∅;
                  RequestConfig.payload := undefined |}.
Proof. repeat split; vm_compute; reflexivity. Qed.



(** Before [init], an operation with a server of its own has no base
    URL. *)
Lemma operation_server_is_ignored_before_init :
  firstServer (Operation.servers adminPets) = Some override
  /\ getBaseURL unloaded (Some (Op adminPets)) = Returns None.
Proof. split; reflexivity. Qed.

Lemma operation_server_overrides_selector_witness :
  getBaseURL client (Some (Op adminPets)) = Returns (Some "https://op-override").
Proof.
  apply (proj1 (operation_server_overrides_selector petstore (ServerIndex 0)
                  adminPets override [] eq_refl)).
Defined.

(** An origin object with an empty URL resolves to nothing. *)
Lemma empty_origin_is_not_used :
  getBaseURL {| definition := Some petstore;
                defaultServer := ServerObject {| Server.url := ""; Server.description := None |} |}
             None
  = Returns None.
Proof. reflexivity. Qed.

(** The selector "staging" on the servers [prod; staging]. *)
Lemma default_server_selection_witness :
  getBaseURL {| definition := Some petstore; defaultServer := ServerDescription "staging" |}
             (Some (Op getPet))
  = Returns (Some "https://staging.example.com").
Proof.
  apply (proj1 (default_server_selection petstore (ServerDescription "staging")
                  (Some (Op getPet)) eq_refl) "staging" [prod] staging []).
  - reflexivity.
  - reflexivity.
  - repeat constructor. simpl. discriminate.
  - reflexivity.
Defined.

Lemma path_parameters_are_inherited_witness :
  exists o, o ∈ getOperations client
    /\ declared o = [limitParam; idParam; traceParam]
    /\ getParamType o "x-trace" = ParamType.Header.
Proof.
  destruct (path_parameters_are_inherited client petstore "/pets/{id}" petItem HttpMethod.Get
              {| OperationObject.operationId := Some "getPet";
                 OperationObject.parameters := Some [limitParam; idParam];
                 OperationObject.servers := None |}
              [traceParam] eq_refl ltac:(apply list_elem_of_here) eq_refl eq_refl)
    as (o & Hin & _ & _ & _ & Hdecl & _ & _ & Hpath).
  exists o. split; [exact Hin|]. split; [exact Hdecl|].
  apply (Hpath "x-trace" traceParam); reflexivity.
Defined.

(** Two explicit triples for the name [id], one for the query and one
    for the headers: the request holds [id] in both maps. *)
Lemma explicit_triples_bind_a_name_twice :
  exists request,
    getRequestConfigForOperation bath_template query_stringify client (Op listPets)
      (call (ParamsArray
         [ {| ExplicitParamValue.name := "id"; ExplicitParamValue.value := num 1;
              ExplicitParamValue.in_ := Some "query" |};
           {| ExplicitParamValue.name := "id"; ExplicitParamValue.value := num 2;
              ExplicitParamValue.in_ := Some "header" |} ])) = Returns request
    /\ RequestConfig.query request !! "id" = Some (num 1)
    /\ RequestConfig.headers request !! "id" = Some (num 2)
    /\ locations "id" (requestParams request) = [ParamType.Query; ParamType.Header].
Proof. eexists. split; [vm_compute; reflexivity|]. by vm_compute. Qed.

Lemma one_location_per_name_witness :
  exists request,
    getRequestConfigForOperation bath_template query_stringify client (Op getPet)
      (call (ParamsArray [idTriple; limitTriple; idTriple])) = Returns request
    /\ length (otherLocations "id" (requestParams request)) <= 1.
Proof.
  destruct (getRequestConfigForOperation bath_template query_stringify client (Op getPet)
              (call (ParamsArray [idTriple; limitTriple; idTriple])))
    as [request|] eqn:Hreq; [|vm_compute in Hreq; discriminate].
  exists request. split; [reflexivity|].
  assert (Hone : oneLocation getPet "id"
                   (OperationMethodArguments.params
                      (call (ParamsArray [idTriple; limitTriple; idTriple])))).
  { intros p q t t' Hp Hq Hpname Hqname Hpt Hqt.
    apply list_elem_of_In in Hp, Hq. simpl in Hp, Hq.
    destruct Hp as [<-|[<-|[<-|[]]]], Hq as [<-|[<-|[<-|[]]]];
      first [discriminate|apply ParamType_value_inj; congruence]. }
  destruct (proj1 (one_location_per_name bath_template query_stringify client getPet
                     (call (ParamsArray [idTriple; limitTriple; idTriple])) request "id"
                     Hone Hreq)) as (st & _ & _ & Hrequest & _).
  exact Hrequest.
Defined.

Lemma only_placeholder_values_are_coerced_witness :
  exists request,
    getRequestConfigForOperation bath_template query_stringify client (Op getPet)
      (call (ParamsObject (<[ "limit" := num 10 ]> {[ "id" := num 7 ]}))) = Returns request
    /\ supplied (ParamsObject (<[ "limit" := num 10 ]> {[ "id" := num 7 ]})) "limit" (num 10)
    /\ RequestConfig.payload request = undefined.
Proof.
  destruct (getRequestConfigForOperation bath_template query_stringify client (Op getPet)
              (call (ParamsObject (<[ "limit" := num 10 ]> {[ "id" := num 7 ]}))))
    as [request|] eqn:Hreq; [|vm_compute in Hreq; discriminate].
  exists request. split; [reflexivity|].
  destruct (only_placeholder_values_are_coerced bath_template query_stringify client getPet
              (call (ParamsObject (<[ "limit" := num 10 ]> {[ "id" := num 7 ]})))
              request Hreq) as (Hpayload & Hquery & _).
  split; [|exact Hpayload].
  apply Hquery. vm_compute in Hreq. injection Hreq as <-. reflexivity.
Defined.

(** ** The further properties on the example description *)

Lemma find_by_path_and_method_witness :
  find (fun o => bool_decide (Operation.path o = "/pets/{id}"
                              /\ Operation.method o = HttpMethod.Get))
       (getOperations client)
  = Some getPet.
Proof.
  apply (find_by_path_and_method client petstore "/pets/{id}" petItem HttpMethod.Get
           {| OperationObject.operationId := Some "getPet";
              OperationObject.parameters := Some [limitParam; idParam];
              OperationObject.servers := None |}).
  - reflexivity.
  - simpl. apply NoDup_singleton.
  - apply list_elem_of_here.
  - reflexivity.
Defined.

Lemma path_servers_are_inherited_witness :
  Operation.servers (catalogued "/admin/pets" adminItem HttpMethod.Get adminOperation)
    = Some [override]
  /\ getBaseURL client
       (Some (Op (catalogued "/admin/pets" adminItem HttpMethod.Get adminOperation)))
     = Returns (Some "https://op-override").
Proof.
  apply (path_servers_are_inherited petstore (ServerIndex 0) "/admin/pets" adminItem
           HttpMethod.Get adminOperation override []).
  reflexivity.
Defined.

Lemma triple_with_unknown_location_is_dropped_witness :
  getRequestConfigForOperation bath_template query_stringify client (Op getPet)
    (call (ParamsArray [bodyTriple; idTriple]))
  = getRequestConfigForOperation bath_template query_stringify client (Op getPet)
      (call (ParamsArray [idTriple])).
Proof.
  apply (proj2 (triple_with_unknown_location_is_dropped bath_template query_stringify client
                  getPet [] [idTriple] bodyTriple "body" undefined None
                  eq_refl ltac:(discriminate) ltac:(intros []; discriminate))).
Defined.

Lemma absent_parameters_bind_nothing_witness :
  exists request,
    getRequestConfigForOperation bath_template query_stringify client (Op getPet)
      (call (SingleParam PNull)) = Returns request
    /\ RequestConfig.query request = ∅
    /\ RequestConfig.pathParams request !! "id" = Some (str "undefined")
    /\ RequestConfig.path request = "/pets/undefined".
Proof.
  assert (Hbase : getBaseURL client (Some (Op getPet)) = Returns (Some "https://api.example.com"))
    by reflexivity.
  assert (Hin : OperationMethodArguments.params (call (SingleParam PNull)) ∈
                  [SingleParam PUndefined; SingleParam PNull; ParamsObject ∅; ParamsArray []])
    by (simpl; apply list_elem_of_further, list_elem_of_here).
  destruct (absent_parameters_bind_nothing bath_template query_stringify client getPet
              (call (SingleParam PNull)) (Some "https://api.example.com") Hin Hbase)
    as (request & Hreq & Hquery & _ & _ & Hpath & Hrendered).
  exists request. split; [exact Hreq|]. split; [exact Hquery|].
  split; [exact (Hpath "id")|]. rewrite Hrendered. vm_compute. reflexivity.
Defined.

Lemma scalar_is_rendered_into_the_path_witness :
  exists request,
    getRequestConfigForOperation bath_template query_stringify client (Op getPet)
      (call (SingleParam (PNum 42))) = Returns request
    /\ RequestConfig.path request = "/pets/42"
    /\ RequestConfig.query request = ∅.
Proof.
  assert (Hbase : getBaseURL client (Some (Op getPet)) = Returns (Some "https://api.example.com"))
    by reflexivity.
  destruct (scalar_is_rendered_into_the_path bath_template query_stringify client getPet
              (call (SingleParam (PNum 42))) (PNum 42) idParam (Some "https://api.example.com")
              eq_refl ltac:(discriminate) ltac:(discriminate) eq_refl eq_refl eq_refl Hbase)
    as (request & Hreq & Hpath & _ & Hquery & _).
  exists request. split; [exact Hreq|]. split; [|exact Hquery].
  rewrite Hpath. vm_compute. reflexivity.
Defined.

Lemma transport_config_without_override_witness :
  exists config,
    getAxiosConfigForOperation bath_template query_stringify client (Op getPet)
      (call (ParamsObject {[ "id" := num 42 ]})) = Returns (Some config)
    /\ config !! "url" = Some (str "/pets/42")
    /\ config !! "baseURL" = None
    /\ config !! "cookies" = None.
Proof.
  assert (Hreq :
    getRequestConfigForOperation bath_template query_stringify client (Op getPet)
      (call (ParamsObject {[ "id" := num 42 ]}))
    = Returns {| RequestConfig.method := HttpMethod.Get;
                 RequestConfig.url := "https://api.example.com/pets/42";
                 RequestConfig.path := "/pets/42";
                 RequestConfig.pathParams := {[ "id" := str "42" ]};
                 RequestConfig.query := ∅;
                 RequestConfig.queryString := "";
                 RequestConfig.headers := ∅;
                 RequestConfig.cookies := ∅;
                 RequestConfig.payload := undefined |}) by (vm_compute; reflexivity).
  destruct (transport_config_without_override bath_template query_stringify client getPet
              (call (ParamsObject {[ "id" := num 42 ]})) _ (or_introl eq_refl) Hreq)
    as (config & Hconfig & _ & Hurl & _ & _ & _ & Hbase & Hother).
  exists config. split; [exact Hconfig|]. split; [exact Hurl|]. split; [exact Hbase|].
  apply Hother. intros H. repeat (apply elem_of_cons in H as [H|H]; [discriminate|]).
  by apply elem_of_nil in H.
Defined.

Lemma createAxiosInstance_keeps_configured_baseURL_witness :
  exists instance,
    createAxiosInstance bath_template query_stringify client
      {[ "baseURL" := str "http://localhost:8080" ]} = Returns instance
    /\ OpenAPIClient.baseURL instance = None.
Proof.
  eassert (Hcreate : createAxiosInstance bath_template query_stringify client
                       {[ "baseURL" := str "http://localhost:8080" ]} = Returns _)
    by reflexivity.
  eexists. split; [exact Hcreate|].
  apply (proj2 (createAxiosInstance_keeps_configured_baseURL bath_template query_stringify
                  client {[ "baseURL" := str "http://localhost:8080" ]} _ Hcreate)).
  reflexivity.
Defined.

Lemma operation_methods_are_bound_to_the_last_witness :
  exists instance,
    createAxiosInstance bath_template query_stringify twinsClient ∅ = Returns instance
    /\ OpenAPIClient.operationMethods instance !! "getPet"
       = Some (createOperationMethod bath_template query_stringify (Some getAnimal))
    /\ getOperation twinsClient "getPet" = Some getPet.
Proof.
  eassert (Hcreate : createAxiosInstance bath_template query_stringify twinsClient ∅ = Returns _)
    by reflexivity.
  destruct (operation_methods_are_bound_to_the_last bath_template query_stringify
              twinsClient ∅ _ Hcreate) as (_ & Hlast & Hfirst & _).
  eexists. split; [exact Hcreate|]. split; [|exact (Hfirst "getPet")].
  apply (Hlast "getPet"). intros H.
  repeat (apply elem_of_cons in H as [H|H]; [discriminate|]).
  by apply elem_of_nil in H.
Defined.

Lemma paths_dictionary_is_bound_to_the_catalogue_witness :
  exists instance methods,
    createAxiosInstance bath_template query_stringify client ∅ = Returns instance
    /\ OpenAPIClient.paths instance !! "/pets/{id}" = Some methods
    /\ methods !! "get" = Some (createOperationMethod bath_template query_stringify (Some getPet))
    /\ methods !! "post" = None.
Proof.
  eassert (Hcreate : createAxiosInstance bath_template query_stringify client ∅ = Returns _)
    by reflexivity.
  assert (Hnodup : NoDup (Document.paths petstore).*1) by (simpl; apply NoDup_singleton).
  destruct (proj2 (paths_dictionary_is_bound_to_the_catalogue bath_template query_stringify
                     client petstore ∅ _ eq_refl Hnodup Hcreate)
              "/pets/{id}" petItem ltac:(apply list_elem_of_here))
    as (methods & Hmethods & Hbound).
  eexists. exists methods. split; [exact Hcreate|]. split; [exact Hmethods|].
  split; [exact (Hbound HttpMethod.Get)|exact (Hbound HttpMethod.Post)].
Defined.

Lemma both_handles_reach_the_same_operation_witness :
  exists instance methods,
    createAxiosInstance bath_template query_stringify client ∅ = Returns instance
    /\ OpenAPIClient.paths instance !! "/pets/{id}" = Some methods
    /\ OpenAPIClient.operationMethods instance !! "getPet" = methods !! "get"
    /\ getOperation client "getPet" = Some getPet.
Proof.
  eassert (Hcreate : createAxiosInstance bath_template query_stringify client ∅ = Returns _)
    by reflexivity.
  assert (Hnodup : NoDup (Document.paths petstore).*1) by (simpl; apply NoDup_singleton).
  assert (Hname : "getPet" ∉ [""; "paths"; "api"]).
  { intros H. repeat (apply elem_of_cons in H as [H|H]; [discriminate|]).
    by apply elem_of_nil in H. }
  assert (Hunique : forall o, o ∈ getOperations client ->
            Operation.operationId o = Some "getPet" ->
            o = catalogued "/pets/{id}" petItem HttpMethod.Get
                  {| OperationObject.operationId := Some "getPet";
                     OperationObject.parameters := Some [limitParam; idParam];
                     OperationObject.servers := None |}).
  { intros o Ho _. rewrite getOperations_petstore in Ho.
    apply list_elem_of_In in Ho. destruct Ho as [<-|[]]. reflexivity. }
  destruct (both_handles_reach_the_same_operation bath_template query_stringify client petstore
              ∅ _ "/pets/{id}" petItem HttpMethod.Get _ "getPet"
              eq_refl Hnodup Hcreate ltac:(apply list_elem_of_here) eq_refl eq_refl
              Hname Hunique)
    as (methods & Hmethods & _ & Hsame & Hfirst).
  eexists. exists methods. split; [exact Hcreate|]. split; [exact Hmethods|].
  split; [exact Hsame|exact Hfirst].
Defined.

Lemma transport_config_ignores_the_selector_witness :
  getBaseURL client (Some (Op getPet)) = Returns (Some "https://api.example.com")
  /\ getBaseURL (withServer (ServerIndex 1) ∅ client) (Some (Op getPet))
     = Returns (Some "https://staging.example.com")
  /\ getAxiosConfigForOperation bath_template query_stringify client (Op getPet)
       (call (ParamsObject {[ "id" := num 42 ]}))
     = getAxiosConfigForOperation bath_template query_stringify
         (withServer (ServerIndex 1) ∅ client) (Op getPet)
         (call (ParamsObject {[ "id" := num 42 ]})).
Proof.
  split; [reflexivity|]. split; [reflexivity|].
  apply (proj1 (transport_config_ignores_the_selector bath_template query_stringify client
                  (withServer (ServerIndex 1) ∅ client) getPet
                  (call (ParamsObject {[ "id" := num 42 ]}))
                  (Some "https://api.example.com") (Some "https://staging.example.com")
                  eq_refl eq_refl)).
Defined.
